(** * gz-sim: the Server control plane, the Stopwatch and SetModelState

    A shallow embedding of [src/Server.cc], [src/Stopwatch.cc] and
    [src/systems/set_model_state/SetModelState.cc].

    Member functions become functions over an explicit state record
    ([ServerPrivate], [Stopwatch.Implementation]); the process-wide
    function-local static of [DefaultWorld::World] is an explicit
    [option string] threaded through every caller; the external
    collaborators (the SDF parser, the file lookup) are the fields of a
    record [Externals] every function is parametric in. A call returns
    in the monad [result]: a value, or the reason there is none (an
    unchecked subscript past the end, a polling loop only another thread
    can end, a run loop that is still going).

    [SimulationRunner] and [ServerPrivate::Run]/[CreateEntities] are not
    among the sources; their definitions follow the specification and
    say so. The [EntityComponentManager] and [math::Angle] the
    SetModelState plugin works on are interfaces ([Class]es) its
    [Configure] is parametric in.

    Definitions come first, the properties after them, grouped by the
    part of the code they are about. *)

From Stdlib Require Import ZArith NArith Bool Ascii String Lia.
From stdpp Require Import base option list strings.

Open Scope string_scope.

(* ===================================================================== *)
(** ** Stopwatch.cc *)
(* ===================================================================== *)

Module Stopwatch.

(** [clock] is [std::chrono::steady_clock]: time points and durations are
    counts of ticks held in a signed 64-bit integer. *)
Definition rep_min : Z := - 2 ^ 63.
Definition rep_zero : Z := 0.

(** Two's-complement reduction of a tick count to 64 bits. *)
Definition wrap64 (z : Z) : Z := (z + 2 ^ 63) mod 2 ^ 64 - 2 ^ 63.

(** [class Stopwatch::Implementation], with its default member values. *)
Record Implementation : Type := mkImplementation {
  running : bool;
  startTime : Z;
  stopTime : Z;
  stopDuration : Z;
  runDuration : Z
}.

Definition Stopwatch_new : Implementation :=
  {| running := false;
     startTime := rep_min;
     stopTime := rep_min;
     stopDuration := rep_zero;
     runDuration := rep_zero |}.

(** [Stopwatch::Reset] *)
Definition Reset (w : Implementation) : Implementation :=
  {| running := false;
     startTime := rep_min;
     stopTime := rep_min;
     stopDuration := rep_zero;
     runDuration := rep_zero |}.

(** [Stopwatch::Start]. The body reads [clock::now()] twice; [now1] is
    the reading used for the stop duration, [now2] the one stored as the
    start time. *)
Definition Start (now1 now2 : Z) (_reset : bool) (w : Implementation)
  : bool * Implementation :=
  let w0 := if _reset then Reset w else w in
  if negb (running w0) then
    let w1 :=
      if negb (startTime w0 =? stopTime w0)%Z then
        {| running := running w0;
           startTime := startTime w0;
           stopTime := stopTime w0;
           stopDuration :=
             wrap64 (stopDuration w0 + wrap64 (now1 - stopTime w0));
           runDuration := runDuration w0 |}
      else w0 in
    (true,
     {| running := true;
        startTime := now2;
        stopTime := stopTime w1;
        stopDuration := stopDuration w1;
        runDuration := runDuration w1 |})
  else (false, w0).

(** [Stopwatch::StartTime] *)
Definition StartTime (w : Implementation) : Z := startTime w.

(** [Stopwatch::Stop] *)
Definition Stop (now : Z) (w : Implementation) : bool * Implementation :=
  if running w then
    (true,
     {| running := false;
        startTime := startTime w;
        stopTime := now;
        stopDuration := stopDuration w;
        runDuration := wrap64 (runDuration w + wrap64 (now - startTime w)) |})
  else (false, w).

(** [Stopwatch::StopTime] *)
Definition StopTime (w : Implementation) : Z := stopTime w.

(** [Stopwatch::Running] *)
Definition Running (w : Implementation) : bool := running w.

(** [Stopwatch::ElapsedRunTime] *)
Definition ElapsedRunTime (now : Z) (w : Implementation) : Z :=
  if running w then wrap64 (wrap64 (now - startTime w) + runDuration w)
  else runDuration w.

(** [Stopwatch::ElapsedStopTime] *)
Definition ElapsedStopTime (now : Z) (w : Implementation) : Z :=
  if running w then stopDuration w
  else if (rep_min <? stopTime w)%Z then
    wrap64 (stopDuration w + wrap64 (now - stopTime w))
  else rep_zero.

(** [Stopwatch::operator==] *)
Definition eqb (a b : Implementation) : bool :=
  Bool.eqb (running a) (running b)
  && (startTime a =? startTime b)%Z
  && (stopTime a =? stopTime b)%Z
  && (stopDuration a =? stopDuration b)%Z
  && (runDuration a =? runDuration b)%Z.

(** [Stopwatch::operator!=] *)
Definition neqb (a b : Implementation) : bool := negb (eqb a b).

End Stopwatch.

(* ===================================================================== *)
(** ** External collaborators of Server.cc *)
(* ===================================================================== *)

(** The part of an [sdf::Root] the Server looks at: its worlds, each with
    a name, the entities it declares and its plugin attachments. *)
Module sdf.

Record World : Type := mkWorld {
  Name : string;
  Models : list string;
  Plugins : list string
}.

Record Root : Type := mkRoot {
  Worlds : list World
}.

Definition Errors : Type := list string.

(** A default-constructed [sdf::Root]. *)
Definition Root_new : Root := {| Worlds := [] |}.

Definition WorldCount (r : Root) : nat := length (Worlds r).

Definition WorldByIndex (r : Root) (j : nat) : option World := Worlds r !! j.

End sdf.

(** [ServerConfig::SourceType] *)
Inductive SourceType : Type := kNone | kSdfRoot | kSdfFile | kSdfString.

(** The getters of [ServerConfig] that Server.cc reads. *)
Record ServerConfig : Type := mkServerConfig {
  Source : SourceType;
  SdfRoot : option sdf.Root;
  SdfFile : string;
  SdfString : string;
  ResourceCache : string;
  DownloadInParallel : bool;
  UseLogRecord : bool;
  UpdatePeriod : option Z
}.

(** What Server.cc calls outside this repository, as functions of their
    arguments: the SDF parser ([sdf::Root::LoadSdfString], [Load],
    [WorldNamesFromFile]), the file lookup ([resolveSdfWorldFile],
    [common::SystemPaths::FindFile] over the resource-path environment
    variable and the install directory), and [AddRecordPlugin], whose
    body is not in the sources. An empty string is the "not found"
    result of the two lookups. *)
Record Externals : Type := mkExternals {
  LoadSdfString : string -> sdf.Errors * sdf.Root;
  Load : string -> sdf.Errors * sdf.Root;
  WorldNamesFromFile : string -> sdf.Errors * list string;
  resolveSdfWorldFile : string -> string -> string;
  FindFile : string -> string;
  AddRecordPlugin : ServerConfig -> sdf.Root -> sdf.Root
}.

(** [std::string::empty] and [sdf::Errors::empty] *)
Definition string_empty (x : string) : bool :=
  match x with EmptyString => true | String _ _ => false end.

Definition errors_empty (e : sdf.Errors) : bool :=
  match e with [] => true | _ :: _ => false end.

(* ===================================================================== *)
(** ** struct DefaultWorld *)
(* ===================================================================== *)

Module DefaultWorld.

(** The initialiser expression of the function-local static. *)
Definition build (_worldName : string) : string :=
  ("<?xml version='1.0'?>" ++
   "<sdf version='1.6'>" ++
   "<world name='" ++ _worldName ++ "'>") ++
  "</world>" ++
  "</sdf>".

(** [DefaultWorld::World]. The static [world] is process state: [None]
    until the first call has run its initialiser, [Some w] from then on.
    The call returns the string and the static as it leaves it. *)
Definition World (world : option string) (_worldName : string)
  : string * option string :=
  match world with
  | Some w => (w, Some w)
  | None => let w := build _worldName in (w, Some w)
  end.

(** The default argument of [World]. *)
Definition default_name : string := "default".

End DefaultWorld.

(* ===================================================================== *)
(** ** SimulationRunner (SimulationRunner.hh/.cc are not in the sources) *)
(* ===================================================================== *)

(** [gz::sim::Entity] is a [uint64_t]. *)
Definition Entity : Type := N.

Definition kNullEntity : Entity := 0%N.

(** Increment of a [uint64_t] counter. *)
Definition incr_u64 (n : N) : N := ((n + 1) mod 2 ^ 64)%N.

(** The two handles [Server::AddSystem] is overloaded on. *)
Inductive SystemHandle : Type :=
| SystemPlugin (plugin : string)
| SystemShared (system : string).

(** Modelled from the spec: an entity of "the entity-component state",
    as far as the Server's queries see it: a handle, a name and the
    entity it hangs under (the storage engine is not in the sources). *)
Record EntityRecord : Type := mkEntityRecord {
  ent_id : Entity;
  ent_name : string;
  ent_parent : Entity
}.

(** Modelled from the spec: the Runner of section 3, "the entity-component
    state for its world, the ordered list of attached plugin instances, a
    running/paused flag, an iteration counter, and an update-period
    setting", with the queue of removal requests and the "blocking paused
    step" override of section 4.3 and the worlds and the "completed asset
    resolution" mark of section 4.2. The class itself is missing from the
    sources. *)
Record SimulationRunner : Type := mkSimulationRunner {
  r_worlds : list sdf.World;
  r_entities : list EntityRecord;
  r_removals : list (Entity * bool);
  r_systems : list SystemHandle;
  r_running : bool;
  r_paused : bool;
  r_iterations : N;
  r_updatePeriod : Z;
  r_nextStepBlockingPaused : bool;
  r_fetchedAllIncludes : bool
}.

Module Runner.

(** Modelled from the spec: the entities a world starts with, "the
    implicit world entity" followed by one entity per declared model,
    numbered from 1 (SimulationRunner's constructor is missing). *)
Definition world_entities (w : sdf.World) : list EntityRecord :=
  {| ent_id := 1%N; ent_name := sdf.Name w; ent_parent := kNullEntity |}
  :: imap (fun k m =>
             {| ent_id := N.of_nat (k + 2); ent_name := m; ent_parent := 1%N |})
          (sdf.Models w).

(** Modelled from the spec: "Server constructs one Runner per world",
    "Runner loads its configured plugins"; a new Runner is neither
    running nor paused and has made no step (the constructor is
    missing). *)
Definition create (w : sdf.World) : SimulationRunner :=
  {| r_worlds := [w];
     r_entities := world_entities w;
     r_removals := [];
     r_systems := SystemPlugin <$> sdf.Plugins w;
     r_running := false;
     r_paused := false;
     r_iterations := 0%N;
     r_updatePeriod := 0%Z;
     r_nextStepBlockingPaused := false;
     r_fetchedAllIncludes := false |}.

(** Modelled from the spec: "[SetPaused(bool)], [Paused() -> bool],
    [Running() -> bool]: simple flag accessors" (SimulationRunner.cc is
    missing). *)
Definition SetPaused (_paused : bool) (r : SimulationRunner) : SimulationRunner :=
  {| r_worlds := r_worlds r;
     r_entities := r_entities r;
     r_removals := r_removals r;
     r_systems := r_systems r;
     r_running := r_running r;
     r_paused := _paused;
     r_iterations := r_iterations r;
     r_updatePeriod := r_updatePeriod r;
     r_nextStepBlockingPaused := r_nextStepBlockingPaused r;
     r_fetchedAllIncludes := r_fetchedAllIncludes r |}.

(** Modelled from the spec: [Paused() -> bool], a "simple flag
    accessor" (SimulationRunner.cc is missing). *)
Definition Paused (r : SimulationRunner) : bool := r_paused r.

(** Modelled from the spec: [Running() -> bool], a "simple flag
    accessor" (SimulationRunner.cc is missing). *)
Definition Running (r : SimulationRunner) : bool := r_running r.

(** Modelled from the spec: "[EntityCount]/[SystemCount]/[IterationCount]:
    monotonic or point-in-time counters" (SimulationRunner.cc is
    missing): the iteration counter. *)
Definition IterationCount (r : SimulationRunner) : N := r_iterations r.

(** Modelled from the spec: the same sentence: the number of entities. *)
Definition EntityCount (r : SimulationRunner) : nat := length (r_entities r).

(** Modelled from the spec: the same sentence: the length of the plugin
    list. *)
Definition SystemCount (r : SimulationRunner) : nat := length (r_systems r).

(** Modelled from the spec: "[SetUpdatePeriod(duration)]: overrides the
    wall-clock pacing ...; affects only pacing" (missing from the
    sources). *)
Definition SetUpdatePeriod (_updatePeriod : Z) (r : SimulationRunner)
  : SimulationRunner :=
  {| r_worlds := r_worlds r;
     r_entities := r_entities r;
     r_removals := r_removals r;
     r_systems := r_systems r;
     r_running := r_running r;
     r_paused := r_paused r;
     r_iterations := r_iterations r;
     r_updatePeriod := _updatePeriod;
     r_nextStepBlockingPaused := r_nextStepBlockingPaused r;
     r_fetchedAllIncludes := r_fetchedAllIncludes r |}.

(** Modelled from the spec: "[AddSystem(plugin)]: rejected (returns
    failure) if the runner is currently running; otherwise appends to the
    plugin list" (missing from the sources). *)
Definition AddSystem (_system : SystemHandle) (r : SimulationRunner)
  : bool * SimulationRunner :=
  if r_running r then (false, r)
  else
    (true,
     {| r_worlds := r_worlds r;
        r_entities := r_entities r;
        r_removals := r_removals r;
        r_systems := r_systems r ++ [_system];
        r_running := r_running r;
        r_paused := r_paused r;
        r_iterations := r_iterations r;
        r_updatePeriod := r_updatePeriod r;
        r_nextStepBlockingPaused := r_nextStepBlockingPaused r;
        r_fetchedAllIncludes := r_fetchedAllIncludes r |}).

(** Modelled from the spec: "a missing entity in any by-name lookup
    yields an empty/absent result" (missing from the sources). *)
Definition EntityByName (_name : string) (r : SimulationRunner) : option Entity :=
  ent_id <$> List.find (fun e => String.eqb (ent_name e) _name) (r_entities r).

(** Modelled from the spec: [HasEntity], a "read-only" query by name
    (missing from the sources). *)
Definition HasEntity (_name : string) (r : SimulationRunner) : bool :=
  match EntityByName _name r with Some _ => true | None => false end.

(** Modelled from the spec: the same query by handle. *)
Definition HasEntityId (_entity : Entity) (r : SimulationRunner) : bool :=
  existsb (fun e => N.eqb (ent_id e) _entity) (r_entities r).

(** Modelled from the spec: a removal request "is queued". *)
Definition queue_removal (_entity : Entity) (_recursive : bool)
  (r : SimulationRunner) : SimulationRunner :=
  {| r_worlds := r_worlds r;
     r_entities := r_entities r;
     r_removals := r_removals r ++ [(_entity, _recursive)];
     r_systems := r_systems r;
     r_running := r_running r;
     r_paused := r_paused r;
     r_iterations := r_iterations r;
     r_updatePeriod := r_updatePeriod r;
     r_nextStepBlockingPaused := r_nextStepBlockingPaused r;
     r_fetchedAllIncludes := r_fetchedAllIncludes r |}.

(** Modelled from the spec: "removal by name or handle, optionally
    recursive over the entity's descendants, is queued and applied at the
    designated point in the next step"; "[RequestRemoveEntity] on a
    non-existent name returns false" (missing from the sources). *)
Definition RequestRemoveEntity_name (_name : string) (_recursive : bool)
  (r : SimulationRunner) : bool * SimulationRunner :=
  match EntityByName _name r with
  | Some e => (true, queue_removal e _recursive r)
  | None => (false, r)
  end.

(** Modelled from the spec: the same, "by ... handle". *)
Definition RequestRemoveEntity_entity (_entity : Entity) (_recursive : bool)
  (r : SimulationRunner) : bool * SimulationRunner :=
  if HasEntityId _entity r then (true, queue_removal _entity _recursive r)
  else (false, r).

(** Modelled from the spec: the "blocking paused step" override of
    section 4.3 (missing from the sources). *)
Definition SetNextStepAsBlockingPaused (_value : bool) (r : SimulationRunner)
  : SimulationRunner :=
  {| r_worlds := r_worlds r;
     r_entities := r_entities r;
     r_removals := r_removals r;
     r_systems := r_systems r;
     r_running := r_running r;
     r_paused := r_paused r;
     r_iterations := r_iterations r;
     r_updatePeriod := r_updatePeriod r;
     r_nextStepBlockingPaused := _value;
     r_fetchedAllIncludes := r_fetchedAllIncludes r |}.

(** Modelled from the spec: section 4.2, step 4: the download task
    "injects the fully resolved worlds into each existing Runner"
    ([AddWorld] is missing from the sources). Its argument is the pointer
    [WorldByIndex] returns, null past the end. *)
Definition AddWorld (w : option sdf.World) (r : SimulationRunner)
  : SimulationRunner :=
  match w with
  | None => r
  | Some w' =>
      {| r_worlds := r_worlds r ++ [w'];
         r_entities := r_entities r;
         r_removals := r_removals r;
         r_systems := r_systems r;
         r_running := r_running r;
         r_paused := r_paused r;
         r_iterations := r_iterations r;
         r_updatePeriod := r_updatePeriod r;
         r_nextStepBlockingPaused := r_nextStepBlockingPaused r;
         r_fetchedAllIncludes := r_fetchedAllIncludes r |}
  end.

(** Modelled from the spec: section 4.2, step 4: "and marks them as
    having completed asset resolution" ([SetFetchedAllIncludes] is
    missing from the sources). *)
Definition SetFetchedAllIncludes (_value : bool) (r : SimulationRunner)
  : SimulationRunner :=
  {| r_worlds := r_worlds r;
     r_entities := r_entities r;
     r_removals := r_removals r;
     r_systems := r_systems r;
     r_running := r_running r;
     r_paused := r_paused r;
     r_iterations := r_iterations r;
     r_updatePeriod := r_updatePeriod r;
     r_nextStepBlockingPaused := r_nextStepBlockingPaused r;
     r_fetchedAllIncludes := _value |}.

(** Modelled from the spec: the write of the Runner's running flag, "the
    only field mutated concurrently by the control thread and the
    simulation thread". *)
Definition set_running (_value : bool) (r : SimulationRunner) : SimulationRunner :=
  {| r_worlds := r_worlds r;
     r_entities := r_entities r;
     r_removals := r_removals r;
     r_systems := r_systems r;
     r_running := _value;
     r_paused := r_paused r;
     r_iterations := r_iterations r;
     r_updatePeriod := r_updatePeriod r;
     r_nextStepBlockingPaused := r_nextStepBlockingPaused r;
     r_fetchedAllIncludes := r_fetchedAllIncludes r |}.

(** Modelled from the spec: removal is "optionally recursive over the
    entity's descendants": the entity and, for a recursive request, every
    entity below it ([fuel] rounds of adding the children of what is
    already marked). *)
Fixpoint descendants (fuel : nat) (ents : list EntityRecord) (dead : list Entity)
  : list Entity :=
  match fuel with
  | O => dead
  | S k =>
      descendants k ents
        (dead ++
         (ent_id <$>
            List.filter
              (fun e => existsb (N.eqb (ent_parent e)) dead
                        && negb (existsb (N.eqb (ent_id e)) dead))
              ents))
  end.

(** Modelled from the spec: one queued request "applied at the
    designated point in the next step". *)
Definition apply_removal (ents : list EntityRecord) (req : Entity * bool)
  : list EntityRecord :=
  let dead :=
    if snd req then descendants (length ents) ents [fst req] else [fst req] in
  List.filter (fun e => negb (existsb (N.eqb (ent_id e)) dead)) ents.

(** Modelled from the spec: one iteration of the loop of section 4.3: "if
    paused, the loop still advances wall-clock bookkeeping but skips
    plugin updates; if not paused, invokes each plugin's ... callbacks
    ..., applies queued entity-removal requests, then increments the
    iteration counter", and under the "blocking paused step" override
    "exactly one step is forced even while paused". The plugin callbacks
    are opaque units and touch none of the fields kept here. The result
    says whether the step was made. *)
Definition Step (r : SimulationRunner) : bool * SimulationRunner :=
  if r_paused r && negb (r_nextStepBlockingPaused r) then (false, r)
  else
    (true,
     {| r_worlds := r_worlds r;
        r_entities := foldl apply_removal (r_entities r) (r_removals r);
        r_removals := [];
        r_systems := r_systems r;
        r_running := r_running r;
        r_paused := r_paused r;
        r_iterations := incr_u64 (r_iterations r);
        r_updatePeriod := r_updatePeriod r;
        r_nextStepBlockingPaused := false;
        r_fetchedAllIncludes := r_fetchedAllIncludes r |}).

(** Modelled from the spec: the loop of [Run(iterations)]: "An iteration
    count of zero means run until externally stopped; a positive bound
    means stop after exactly that many unpaused steps unless a blocking
    paused step override is requested". [done] counts the steps made;
    [fuel] bounds the number of loop iterations looked at, and [None]
    says the loop is still going after that many. *)
Fixpoint Run_loop (fuel : nat) (_iterations done : N) (r : SimulationRunner)
  : option SimulationRunner :=
  if negb (_iterations =? 0)%N && (_iterations <=? done)%N then Some r
  else
    match fuel with
    | O => None
    | S k =>
        let '(stepped, r') := Step r in
        Run_loop k _iterations (if stepped then (done + 1)%N else done) r'
    end.

(** Modelled from the spec: [SimulationRunner::Run], which holds the
    running flag for the duration of its loop (missing from the
    sources). *)
Definition Run (fuel : nat) (_iterations : N) (r : SimulationRunner)
  : option (bool * SimulationRunner) :=
  r' ← Run_loop fuel _iterations 0%N (set_running true r);
  Some (true, set_running false r').

End Runner.

(* ===================================================================== *)
(** ** ServerPrivate and the results of Server's member functions *)
(* ===================================================================== *)

(** The members of [ServerPrivate] that Server.cc reads and writes.
    [sigHandlerInitialized] is [sigHandler.Initialized()]; [runThread] is
    [None] while [runThread.get_id() == std::thread::id()] and holds the
    thread's id afterwards; [downloadModelsThread] says whether that
    thread has been started. [threadsSpawned] is a ghost counter: the
    number of control threads constructed so far by [Server::Run]. *)
Record ServerPrivate : Type := mkServerPrivate {
  config : ServerConfig;
  sdfRoot : sdf.Root;
  simRunners : list SimulationRunner;
  running : bool;
  sigHandlerInitialized : bool;
  runThread : option nat;
  threadsSpawned : nat;
  downloadModelsThread : bool
}.

Definition set_sdfRoot (root : sdf.Root) (s : ServerPrivate) : ServerPrivate :=
  {| config := config s;
     sdfRoot := root;
     simRunners := simRunners s;
     running := running s;
     sigHandlerInitialized := sigHandlerInitialized s;
     runThread := runThread s;
     threadsSpawned := threadsSpawned s;
     downloadModelsThread := downloadModelsThread s |}.

Definition set_simRunners (rs : list SimulationRunner) (s : ServerPrivate)
  : ServerPrivate :=
  {| config := config s;
     sdfRoot := sdfRoot s;
     simRunners := rs;
     running := running s;
     sigHandlerInitialized := sigHandlerInitialized s;
     runThread := runThread s;
     threadsSpawned := threadsSpawned s;
     downloadModelsThread := downloadModelsThread s |}.

Definition set_running (b : bool) (s : ServerPrivate) : ServerPrivate :=
  {| config := config s;
     sdfRoot := sdfRoot s;
     simRunners := simRunners s;
     running := b;
     sigHandlerInitialized := sigHandlerInitialized s;
     runThread := runThread s;
     threadsSpawned := threadsSpawned s;
     downloadModelsThread := downloadModelsThread s |}.

Definition set_downloadModelsThread (b : bool) (s : ServerPrivate) : ServerPrivate :=
  {| config := config s;
     sdfRoot := sdfRoot s;
     simRunners := simRunners s;
     running := running s;
     sigHandlerInitialized := sigHandlerInitialized s;
     runThread := runThread s;
     threadsSpawned := threadsSpawned s;
     downloadModelsThread := b |}.

(** [runThread = std::thread(...)]: a new thread object is stored and the
    ghost counter goes up by one. *)
Definition spawn_runThread (s : ServerPrivate) : ServerPrivate :=
  {| config := config s;
     sdfRoot := sdfRoot s;
     simRunners := simRunners s;
     running := running s;
     sigHandlerInitialized := sigHandlerInitialized s;
     runThread := Some (S (threadsSpawned s));
     threadsSpawned := S (threadsSpawned s);
     downloadModelsThread := downloadModelsThread s |}.

(** [new ServerPrivate] with [config] assigned, as [Server::Server] has
    it before it calls [Init]; whether the signal handlers could be
    installed is decided by the process. *)
Definition ServerPrivate_new (sig : bool) (c : ServerConfig) : ServerPrivate :=
  {| config := c;
     sdfRoot := sdf.Root_new;
     simRunners := [];
     running := false;
     sigHandlerInitialized := sig;
     runThread := None;
     threadsSpawned := 0;
     downloadModelsThread := false |}.

(** Why a call has not returned a value:
    - [OutOfBounds]: it evaluated [simRunners[i]] with [i] past the end
      ([std::vector::operator[]] does not check);
    - [Polling]: it is inside a [while (simRunners.size() == 0)
      sleep_for(100ms)] loop, which only another thread can end;
    - [OutOfFuel]: the blocking run loop is still going after the number
      of loop iterations that were followed. *)
Inductive stuck : Type := OutOfBounds | Polling | OutOfFuel.

Inductive result (A : Type) : Type :=
| Ok (a : A)
| Stuck (why : stuck).

Arguments Ok {A} a.
Arguments Stuck {A} why.

Global Instance result_bind : MBind result :=
  fun A B (k : A -> result B) (m : result A) =>
    match m with
    | Ok a => k a
    | Stuck w => Stuck w
    end.

Global Instance result_ret : MRet result := fun A (a : A) => Ok a.

(** [v[i]] on a [std::vector] of Runners. *)
Definition at_index (v : list SimulationRunner) (i : nat) : result SimulationRunner :=
  match v !! i with
  | Some r => Ok r
  | None => Stuck OutOfBounds
  end.

(** A loop followed for a bounded number of iterations: [None] is the
    loop still going. *)
Definition of_fuel {A : Type} (o : option A) : result A :=
  match o with
  | Some a => Ok a
  | None => Stuck OutOfFuel
  end.

(* ===================================================================== *)
(** ** Server.cc *)
(* ===================================================================== *)

Module Server.

(** The world index parameters are [unsigned int]; they are only compared
    with [simRunners.size()] and used as subscripts, so they are natural
    numbers here. *)

(** The tail of [Server::DownloadModels], after the [switch]. *)
Definition DownloadModels_end (errors : sdf.Errors) (world : option string)
  (s : ServerPrivate) : result (bool * option string * ServerPrivate) :=
  if negb (errors_empty errors) then Ok (false, world, s)
  else Ok (true, world, s).

(** [Server::DownloadModels]. [world] is the static of
    [DefaultWorld::World] before the call; the result carries it as the
    call leaves it. A default-constructed [sdf::Errors] is empty. *)
Definition DownloadModels (E : Externals) (world : option string)
  (s : ServerPrivate) : result (bool * option string * ServerPrivate) :=
  let cfg := config s in
  match Source cfg with
  | kSdfRoot =>
      (* a configuration of this source holds a root *)
      let s1 := set_sdfRoot (default sdf.Root_new (SdfRoot cfg)) s in
      DownloadModels_end [] world s1
  | kSdfString =>
      let '(errors, root) := LoadSdfString E (SdfString cfg) in
      DownloadModels_end errors world (set_sdfRoot root s)
  | kSdfFile =>
      let filePath := resolveSdfWorldFile E (SdfFile cfg) (ResourceCache cfg) in
      if string_empty filePath then Ok (false, world, s)
      else if DownloadInParallel cfg && (length (simRunners s) =? 0)%nat then
        Stuck Polling
      else
        let '(errors, root) := Load E filePath in
        let s1 := set_sdfRoot root s in
        if negb (DownloadInParallel cfg) then Ok (true, world, s1)
        else if (sdf.WorldCount (sdfRoot s1) =? 0)%nat then Ok (false, world, s1)
        else if (length (simRunners s1) =? 0)%nat then Stuck Polling
        else
          let s2 :=
            set_simRunners
              ((fun runner =>
                  Runner.SetFetchedAllIncludes true
                    (foldl (fun r j => Runner.AddWorld (sdf.WorldByIndex (sdfRoot s1) j) r)
                       runner (seq 0 (sdf.WorldCount (sdfRoot s1)))))
                 <$> simRunners s1)
              s1 in
          DownloadModels_end errors world s2
  | kNone =>
      let '(doc, world1) := DefaultWorld.World world DefaultWorld.default_name in
      let '(errors, root) := LoadSdfString E doc in
      DownloadModels_end errors world1 (set_sdfRoot root s)
  end.

(** Modelled from the spec: [ServerPrivate::CreateEntities], "Server
    constructs one Runner per world" of the resolved description
    (ServerPrivate.cc is not in the sources). *)
Definition CreateEntities (s : ServerPrivate) : ServerPrivate :=
  set_simRunners (simRunners s ++ (Runner.create <$> sdf.Worlds (sdfRoot s))) s.

(** [Server::SetUpdatePeriod] *)
Definition SetUpdatePeriod (_updatePeriod : Z) (_worldIndex : nat)
  (s : ServerPrivate) : result ServerPrivate :=
  if (_worldIndex <? length (simRunners s))%nat then
    r ← at_index (simRunners s) _worldIndex;
    Ok (set_simRunners
          (<[_worldIndex := Runner.SetUpdatePeriod _updatePeriod r]> (simRunners s)) s)
  else Ok s.

(** Which [return] of [Server::Init] was taken: one before
    [CreateEntities], or the end of the body. *)
Inductive InitOutcome : Type := Aborted | Initialized.

(** [Server::Init] from the check of [errors] onwards. [SetupTransport]
    creates publishers and subscribers and leaves these members alone. *)
Definition Init_end (E : Externals) (errors : sdf.Errors) (world : option string)
  (s : ServerPrivate) : result (InitOutcome * option string * ServerPrivate) :=
  if negb (errors_empty errors) then Ok (Aborted, world, s)
  else
    let s1 :=
      if UseLogRecord (config s)
      then set_sdfRoot (AddRecordPlugin E (config s) (sdfRoot s)) s
      else s in
    let s2 := CreateEntities s1 in
    s3 ← match UpdatePeriod (config s2) with
         | Some p => SetUpdatePeriod p 0 s2
         | None => Ok s2
         end;
    Ok (Initialized, world, s3).

(** [Server::Init]. The fuel client and the find callbacks it registers
    first are the wiring behind [Externals]. In parallel mode the
    download thread is started and runs [DownloadModels] on its own; its
    effect is that of [DownloadModels] on the state it finds. *)
Definition Init (E : Externals) (world : option string) (s : ServerPrivate)
  : result (InitOutcome * option string * ServerPrivate) :=
  let cfg := config s in
  if DownloadInParallel cfg then
    let s1 := set_downloadModelsThread true s in
    let filePath := FindFile E (SdfFile cfg) in
    let '(errors2, worldNames) := WorldNamesFromFile E filePath in
    match worldNames with
    | name0 :: _ =>
        let '(doc, world1) := DefaultWorld.World world name0 in
        let '(errors, root) := LoadSdfString E doc in
        Init_end E errors world1 (set_sdfRoot root s1)
    | [] => Ok (Aborted, world, s1)
    end
  else
    '(ok, world1, s1) ← DownloadModels E world s;
    if negb ok then Ok (Aborted, world1, s1)
    else Init_end E [] world1 s1.

(** [Server::Server] *)
Definition Server_new (E : Externals) (sig : bool) (world : option string)
  (_config : ServerConfig) : result (InitOutcome * option string * ServerPrivate) :=
  Init E world (ServerPrivate_new sig _config).

(** Modelled from the spec: the Runners of one Server are run by one
    simulation thread "shared by all its Runners, stepped sequentially"
    (ServerPrivate.cc is not in the sources). *)
Fixpoint run_runners (fuel : nat) (_iterations : N) (rs : list SimulationRunner)
  : option (bool * list SimulationRunner) :=
  match rs with
  | [] => Some (true, [])
  | r :: rs' =>
      '(b, r') ← Runner.Run fuel _iterations r;
      '(bs, rs'') ← run_runners fuel _iterations rs';
      Some (b && bs, r' :: rs'')
  end.

(** Modelled from the spec: [ServerPrivate::Run], "the shared run
    routine" of blocking and non-blocking mode, which holds the Server's
    running flag for as long as the Runners run (ServerPrivate.cc is not
    in the sources). *)
Definition ServerPrivate_Run (fuel : nat) (_iterations : N) (s : ServerPrivate)
  : result (bool * ServerPrivate) :=
  let s1 := set_running true s in
  '(b, rs) ← of_fuel (run_runners fuel _iterations (simRunners s1));
  Ok (b, set_running false (set_simRunners rs s1)).

(** [Server::Run]. In the non-blocking branch the caller waits on [cond]
    until the new thread has set [running]; what the thread does after
    that is [control_thread_progress] below. *)
Definition Run (fuel : nat) (_blocking : bool) (_iterations : N) (_paused : bool)
  (s : ServerPrivate) : result (bool * ServerPrivate) :=
  let s1 := set_simRunners (Runner.SetPaused _paused <$> simRunners s) s in
  if negb (sigHandlerInitialized s1) then Ok (false, s1)
  else if running s1 then Ok (false, s1)
  else if _blocking then ServerPrivate_Run fuel _iterations s1
  else
    match runThread s1 with
    | None => Ok (true, set_running true (spawn_runThread s1))
    | Some _ => Ok (false, s1)
    end.

(** [Server::RunOnce] *)
Definition RunOnce (fuel : nat) (_paused : bool) (s : ServerPrivate)
  : result (bool * ServerPrivate) :=
  let s1 :=
    if _paused
    then set_simRunners (Runner.SetNextStepAsBlockingPaused true <$> simRunners s) s
    else s in
  Run fuel true 1%N _paused s1.

(** [Server::Running() const] *)
Definition Running (s : ServerPrivate) : bool := running s.

(** [Server::Running(unsigned int) const] *)
Definition Running_at (_worldIndex : nat) (s : ServerPrivate) : result (option bool) :=
  if (_worldIndex <? length (simRunners s))%nat then
    r ← at_index (simRunners s) _worldIndex; Ok (Some (Runner.Running r))
  else Ok None.

(** [Server::SetPaused] *)
Definition SetPaused (_paused : bool) (_worldIndex : nat) (s : ServerPrivate)
  : result (bool * ServerPrivate) :=
  if (_worldIndex <? length (simRunners s))%nat then
    r ← at_index (simRunners s) _worldIndex;
    Ok (true,
        set_simRunners (<[_worldIndex := Runner.SetPaused _paused r]> (simRunners s)) s)
  else Ok (false, s).

(** [Server::Paused] *)
Definition Paused (_worldIndex : nat) (s : ServerPrivate) : result (option bool) :=
  if (_worldIndex <? length (simRunners s))%nat then
    r ← at_index (simRunners s) _worldIndex; Ok (Some (Runner.Paused r))
  else Ok None.

(** [Server::IterationCount] *)
Definition IterationCount (_worldIndex : nat) (s : ServerPrivate) : result (option N) :=
  if (_worldIndex <? length (simRunners s))%nat then
    r ← at_index (simRunners s) _worldIndex; Ok (Some (Runner.IterationCount r))
  else Ok None.

(** [Server::EntityCount] *)
Definition EntityCount (_worldIndex : nat) (s : ServerPrivate) : result (option nat) :=
  if (_worldIndex <? length (simRunners s))%nat then
    r ← at_index (simRunners s) _worldIndex; Ok (Some (Runner.EntityCount r))
  else Ok None.

(** [Server::SystemCount] *)
Definition SystemCount (_worldIndex : nat) (s : ServerPrivate) : result (option nat) :=
  if (_worldIndex <? length (simRunners s))%nat then
    r ← at_index (simRunners s) _worldIndex; Ok (Some (Runner.SystemCount r))
  else Ok None.

(** The body the two overloads of [Server::AddSystem] share; the value
    of the Runner's own [AddSystem] is not looked at. *)
Definition AddSystem (_system : SystemHandle) (_worldIndex : nat)
  (s : ServerPrivate) : result (option bool * ServerPrivate) :=
  if running s then Ok (Some false, s)
  else if (_worldIndex <? length (simRunners s))%nat then
    r ← at_index (simRunners s) _worldIndex;
    Ok (Some true,
        set_simRunners
          (<[_worldIndex := snd (Runner.AddSystem _system r)]> (simRunners s)) s)
  else Ok (None, s).

(** [Server::AddSystem(const SystemPluginPtr &, unsigned int)] *)
Definition AddSystem_plugin (_system : string) (_worldIndex : nat)
  (s : ServerPrivate) : result (option bool * ServerPrivate) :=
  AddSystem (SystemPlugin _system) _worldIndex s.

(** [Server::AddSystem(const std::shared_ptr<System> &, unsigned int)] *)
Definition AddSystem_shared (_system : string) (_worldIndex : nat)
  (s : ServerPrivate) : result (option bool * ServerPrivate) :=
  AddSystem (SystemShared _system) _worldIndex s.

(** [Server::HasEntity] *)
Definition HasEntity (_name : string) (_worldIndex : nat) (s : ServerPrivate)
  : result bool :=
  if (_worldIndex <? length (simRunners s))%nat then
    r ← at_index (simRunners s) _worldIndex; Ok (Runner.HasEntity _name r)
  else Ok false.

(** [Server::EntityByName] *)
Definition EntityByName (_name : string) (_worldIndex : nat) (s : ServerPrivate)
  : result (option Entity) :=
  if (_worldIndex <? length (simRunners s))%nat then
    r ← at_index (simRunners s) _worldIndex; Ok (Runner.EntityByName _name r)
  else Ok None.

(** [Server::RequestRemoveEntity(const std::string &, bool, unsigned int)] *)
Definition RequestRemoveEntity_name (_name : string) (_recursive : bool)
  (_worldIndex : nat) (s : ServerPrivate) : result (bool * ServerPrivate) :=
  if (_worldIndex <? length (simRunners s))%nat then
    r ← at_index (simRunners s) _worldIndex;
    let '(b, r') := Runner.RequestRemoveEntity_name _name _recursive r in
    Ok (b, set_simRunners (<[_worldIndex := r']> (simRunners s)) s)
  else Ok (false, s).

(** [Server::RequestRemoveEntity(const Entity, bool, unsigned int)] *)
Definition RequestRemoveEntity_entity (_entity : Entity) (_recursive : bool)
  (_worldIndex : nat) (s : ServerPrivate) : result (bool * ServerPrivate) :=
  if (_worldIndex <? length (simRunners s))%nat then
    r ← at_index (simRunners s) _worldIndex;
    let '(b, r') := Runner.RequestRemoveEntity_entity _entity _recursive r in
    Ok (b, set_simRunners (<[_worldIndex := r']> (simRunners s)) s)
  else Ok (false, s).

End Server.

(** What the control thread started by a non-blocking [Server::Run] may
    have done by the time the caller looks again: nothing yet, or, while
    the Server is marked running, any amount of stepping of the Runners,
    after which it may or may not have finished and cleared [running].
    The thread object stays in [runThread] either way. *)
Inductive control_thread_progress : ServerPrivate -> ServerPrivate -> Prop :=
| progress_none (s : ServerPrivate) :
    control_thread_progress s s
| progress_some (s : ServerPrivate) (rs : list SimulationRunner) (b : bool) :
    runThread s <> None ->
    running s = true ->
    control_thread_progress s (set_running b (set_simRunners rs s)).

(** The number of control threads a Server holds agrees with its ghost
    counter: none before the first spawn, one after. *)
Definition one_control_thread (s : ServerPrivate) : Prop :=
  threadsSpawned s = match runThread s with None => 0 | Some _ => 1 end.

(** The states in which a non-blocking [Run] is turned down: the signal
    handlers are missing, the Server is running, or a control thread has
    been created before. *)
Definition turns_down (s : ServerPrivate) : Prop :=
  sigHandlerInitialized s = false \/ running s = true \/ runThread s <> None.

(** A Runner whose next loop iteration makes a step: it is not paused, or
    its next step is marked as a blocking paused step. *)
Definition can_step (r : SimulationRunner) : Prop :=
  r_paused r = false \/ r_nextStepBlockingPaused r = true.

(** [r'] is [r] one step later, as far as the counters and flags of the
    control surface go. *)
Definition stepped_once (r r' : SimulationRunner) : Prop :=
  r_iterations r' = incr_u64 (r_iterations r) /\
  r_paused r' = r_paused r /\
  r_running r' = false.

(** A Runner that is outside its loop, and a Server all of whose Runners
    are. *)
Definition idle (r : SimulationRunner) : Prop := r_running r = false.

Definition all_idle (s : ServerPrivate) : Prop := Forall idle (simRunners s).

(** One call on the Server from the thread that owns it, the download
    task's [DownloadModels], or the control thread running its Runners to
    the end of their loops. *)
Inductive server_step (E : Externals) (s s' : ServerPrivate) : Prop :=
| step_Run (fuel : nat) (blocking : bool) (n : N) (p b : bool) :
    Server.Run fuel blocking n p s = Ok (b, s') -> server_step E s s'
| step_RunOnce (fuel : nat) (p b : bool) :
    Server.RunOnce fuel p s = Ok (b, s') -> server_step E s s'
| step_SetPaused (p : bool) (i : nat) (b : bool) :
    Server.SetPaused p i s = Ok (b, s') -> server_step E s s'
| step_SetUpdatePeriod (period : Z) (i : nat) :
    Server.SetUpdatePeriod period i s = Ok s' -> server_step E s s'
| step_AddSystem (sys : SystemHandle) (i : nat) (b : option bool) :
    Server.AddSystem sys i s = Ok (b, s') -> server_step E s s'
| step_RequestRemoveEntity_name (name : string) (rec : bool) (i : nat) (b : bool) :
    Server.RequestRemoveEntity_name name rec i s = Ok (b, s') -> server_step E s s'
| step_RequestRemoveEntity_entity (e : Entity) (rec : bool) (i : nat) (b : bool) :
    Server.RequestRemoveEntity_entity e rec i s = Ok (b, s') -> server_step E s s'
| step_DownloadModels (world world' : option string) (b : bool) :
    Server.DownloadModels E world s = Ok (b, world', s') -> server_step E s s'
| step_control_thread_done (fuel : nat) (n : N) (b : bool) (rs : list SimulationRunner) :
    runThread s <> None ->
    running s = true ->
    Server.run_runners fuel n (simRunners s) = Some (b, rs) ->
    s' = set_running false (set_simRunners rs s) ->
    server_step E s s'.

(** The Servers a process can hold: constructed by [Server::Server], then
    any number of steps. *)
Inductive reachable (E : Externals) : ServerPrivate -> Prop :=
| reachable_new (sig : bool) (world world' : option string) (c : ServerConfig)
    (o : Server.InitOutcome) (s : ServerPrivate) :
    Server.Server_new E sig world c = Ok (o, world', s) -> reachable E s
| reachable_step (s s' : ServerPrivate) :
    reachable E s -> server_step E s s' -> reachable E s'.

(** [RunOnce] as the specification words it: [Run(blocking=true,
    iterations=1, paused)] on a Server in which, when [paused] is set,
    every Runner's next step has first been marked as a forced
    blocking-paused step. *)
Definition mark_forced_step (s : ServerPrivate) : ServerPrivate :=
  set_simRunners
    ((fun r => Runner.SetNextStepAsBlockingPaused true r) <$> simRunners s) s.

Definition RunOnce_spec (fuel : nat) (_paused : bool) (s : ServerPrivate)
  : result (bool * ServerPrivate) :=
  Server.Run fuel true 1%N _paused (if _paused then mark_forced_step s else s).

(* ===================================================================== *)
(** ** Concrete collaborators, configurations and states *)
(* ===================================================================== *)

Module Examples.

(** A reader for the documents [DefaultWorld.build] writes: the fixed
    prologue, a world name up to the closing quote, the fixed epilogue.
    Anything else is a parse error and loads no world. *)
Fixpoint strip_prefix (p s : string) : option string :=
  match p, s with
  | EmptyString, _ => Some s
  | String a p', String b s' => if Ascii.eqb a b then strip_prefix p' s' else None
  | String _ _, EmptyString => None
  end.

Fixpoint read_name (s : string) : option (string * string) :=
  match s with
  | EmptyString => None
  | String c s' =>
      if Ascii.eqb c "'"%char then Some (EmptyString, s')
      else
        match read_name s' with
        | Some (n, rest) => Some (String c n, rest)
        | None => None
        end
  end.

Definition parse_error : sdf.Errors * sdf.Root :=
  (["Unable to read SDF string"], sdf.Root_new).

Definition read_world_document (doc : string) : sdf.Errors * sdf.Root :=
  match strip_prefix "<?xml version='1.0'?><sdf version='1.6'><world name='" doc with
  | Some rest =>
      match read_name rest with
      | Some (n, tail) =>
          if String.eqb tail "></world></sdf>"
          then ([], {| sdf.Worlds := [ {| sdf.Name := n; sdf.Models := []; sdf.Plugins := [] |} ] |})
          else parse_error
      | None => parse_error
      end
  | None => parse_error
  end.

(** Two files: [shapes.sdf] loads cleanly; [broken.sdf] is found and
    yields a world, with an error reported for one of its models. *)
Definition shapes_world : sdf.World :=
  {| sdf.Name := "shapes"; sdf.Models := ["box"; "sphere"]; sdf.Plugins := [] |}.

Definition broken_world : sdf.World :=
  {| sdf.Name := "broken"; sdf.Models := ["box"]; sdf.Plugins := [] |}.

Definition find_file (file : string) : string :=
  if String.eqb file "shapes.sdf" then "/worlds/shapes.sdf"
  else if String.eqb file "broken.sdf" then "/worlds/broken.sdf"
  else EmptyString.

Definition load_file (path : string) : sdf.Errors * sdf.Root :=
  if String.eqb path "/worlds/shapes.sdf" then ([], {| sdf.Worlds := [shapes_world] |})
  else if String.eqb path "/worlds/broken.sdf"
  then (["Unable to find uri[model://missing]"], {| sdf.Worlds := [broken_world] |})
  else (["Unable to read file"], sdf.Root_new).

Definition world_names (path : string) : sdf.Errors * list string :=
  if String.eqb path "/worlds/shapes.sdf" then ([], ["shapes"])
  else if String.eqb path "/worlds/broken.sdf" then ([], ["broken"])
  else (["Unable to read file"], []).

Definition add_record_plugin (c : ServerConfig) (root : sdf.Root) : sdf.Root :=
  {| sdf.Worlds :=
       (fun w => {| sdf.Name := sdf.Name w;
                    sdf.Models := sdf.Models w;
                    sdf.Plugins := sdf.Plugins w ++ ["gz::sim::systems::LogRecord"] |})
         <$> sdf.Worlds root |}.

Definition E0 : Externals :=
  {| LoadSdfString := read_world_document;
     Load := load_file;
     WorldNamesFromFile := world_names;
     resolveSdfWorldFile := fun file _ => find_file file;
     FindFile := find_file;
     AddRecordPlugin := add_record_plugin |}.

Definition config_of (src : SourceType) (file : string) (parallel : bool)
  : ServerConfig :=
  {| Source := src;
     SdfRoot := None;
     SdfFile := file;
     SdfString := EmptyString;
     ResourceCache := EmptyString;
     DownloadInParallel := parallel;
     UseLogRecord := false;
     UpdatePeriod := None |}.

(** The configuration with no source. *)
Definition no_source : ServerConfig := config_of kNone EmptyString false.

Definition default_world : sdf.World :=
  {| sdf.Name := "default"; sdf.Models := []; sdf.Plugins := [] |}.

Definition runner0 : SimulationRunner := Runner.create default_world.

(** The Server [Server::Server] builds from a configuration with no
    source, in a process that has not asked for a default world before:
    one Runner, nothing running. *)
Definition idle_server : ServerPrivate :=
  match Server.Server_new E0 true None no_source with
  | Ok (_, _, s) => s
  | Stuck _ => ServerPrivate_new true no_source
  end.

(** The same Server after [Run(false, 0, false)]: the control thread is
    there and the Server is running. *)
Definition busy_server : ServerPrivate :=
  match Server.Run 0 false 0%N false idle_server with
  | Ok (_, s) => s
  | Stuck _ => idle_server
  end.

(** A Server set to download in parallel a file that is not there, with
    a Runner in place. *)
Definition lost_parallel_server : ServerPrivate :=
  {| config := config_of kSdfFile "nowhere.sdf" true;
     sdfRoot := sdf.Root_new;
     simRunners := [runner0];
     running := false;
     sigHandlerInitialized := true;
     runThread := None;
     threadsSpawned := 0;
     downloadModelsThread := true |}.

Definition running_watch : Stopwatch.Implementation :=
  snd (Stopwatch.Start 10 11 false Stopwatch.Stopwatch_new).

End Examples.

(* ===================================================================== *)
(** ** Sequences of calls on a Stopwatch *)
(* ===================================================================== *)

Module StopwatchCalls.

(** A tick count that fits the clock's 64-bit representation. *)
Definition in64 (z : Z) : Prop := (- 2 ^ 63 <= z < 2 ^ 63)%Z.

(** One call of a mutating member function, with the readings
    [clock::now()] gives during it, in the order the body asks for
    them. *)
Inductive call : Type :=
| CallStart (now1 now2 : Z) (_reset : bool)
| CallStop (now : Z)
| CallReset.

Definition apply (c : call) (w : Stopwatch.Implementation)
  : Stopwatch.Implementation :=
  match c with
  | CallStart now1 now2 r => snd (Stopwatch.Start now1 now2 r w)
  | CallStop now => snd (Stopwatch.Stop now w)
  | CallReset => Stopwatch.Reset w
  end.

Definition run (cs : list call) (w : Stopwatch.Implementation)
  : Stopwatch.Implementation :=
  foldl (fun w c => apply c w) w cs.

Definition readings (c : call) : list Z :=
  match c with
  | CallStart now1 now2 _ => [now1; now2]
  | CallStop now => [now]
  | CallReset => []
  end.

(** The readings [zs] of a steady clock taken after the reading [t]:
    none goes back, and none reaches [2 ^ 62] ticks. *)
Fixpoint steady (t : Z) (zs : list Z) : Prop :=
  match zs with
  | [] => True
  | z :: zs' => (t <= z < 2 ^ 62)%Z /\ steady z zs'
  end.

(** The last reading of a sequence that starts after [t]. *)
Definition last_reading (t : Z) (zs : list Z) : Z := foldl (fun _ z => z) t zs.

(** What a stopwatch driven by a steady clock looks like at the reading
    [t]: it is as new, or its time points are readings in order (the
    stop time, if any, not after the start time while it runs, not
    before it while it is stopped) and the two durations are
    non-negative and together no longer than the time up to the later
    time point. *)
Definition tidy (t : Z) (w : Stopwatch.Implementation) : Prop :=
  (0 <= Stopwatch.runDuration w)%Z /\
  (0 <= Stopwatch.stopDuration w)%Z /\
  if Stopwatch.running w then
    (0 <= Stopwatch.startTime w <= t)%Z /\
    (Stopwatch.stopTime w = Stopwatch.rep_min \/
     (0 <= Stopwatch.stopTime w <= Stopwatch.startTime w)%Z) /\
    (Stopwatch.runDuration w + Stopwatch.stopDuration w <= Stopwatch.startTime w)%Z
  else
    w = Stopwatch.Stopwatch_new \/
    ((0 <= Stopwatch.startTime w <= Stopwatch.stopTime w)%Z /\
     (Stopwatch.stopTime w <= t)%Z /\
     (Stopwatch.runDuration w + Stopwatch.stopDuration w <= Stopwatch.stopTime w)%Z).

End StopwatchCalls.

(* ===================================================================== *)
(** ** What Server's member functions leave alone *)
(* ===================================================================== *)

(** [s'] is [s] but for the Runner at index [i]: the members of the
    Server, the number of Runners and every other Runner are the
    same. *)
Definition only_Runner_changed (i : nat) (s s' : ServerPrivate) : Prop :=
  s' = set_simRunners (simRunners s') s /\
  length (simRunners s') = length (simRunners s) /\
  forall j, j <> i -> simRunners s' !! j = simRunners s !! j.

(** The members of a Server that resolution and construction leave
    alone. *)
Definition same_control_state (s s' : ServerPrivate) : Prop :=
  config s' = config s /\
  running s' = running s /\
  sigHandlerInitialized s' = sigHandlerInitialized s /\
  runThread s' = runThread s /\
  threadsSpawned s' = threadsSpawned s.

(* ===================================================================== *)
(** ** systems/set_model_state/SetModelState.cc *)
(* ===================================================================== *)

Module SetModelState.

(** What [Configure] reads of a [<position>] or [<velocity>] element:
    [Get<bool>("degrees", false).first], and the pair of
    [Get<double>] of the text as [Some v] when its second component says a
    value was read. *)
Record ValueElem (double : Type) : Type := mkValueElem {
  degrees : bool;
  text : option double
}.
Arguments mkValueElem {double} _ _.
Arguments degrees {double} _.
Arguments text {double} _.

(** An [<axis>] or [<axis2>] element: its first [<position>] and
    [<velocity>] children, [None] for the null pointer of
    [FindElement]. *)
Record AxisElem (double : Type) : Type := mkAxisElem {
  position : option (ValueElem double);
  velocity : option (ValueElem double)
}.
Arguments mkAxisElem {double} _ _.
Arguments position {double} _.
Arguments velocity {double} _.

(** A [<joint_state>] element: the pair of [Get<std::string>] of [name]
    as [Some n] when a name was read, and its [<axis>] and [<axis2>]
    children. *)
Record JointStateElem (double : Type) : Type := mkJointStateElem {
  name : option string;
  axis : option (AxisElem double);
  axis2 : option (AxisElem double)
}.
Arguments mkJointStateElem {double} _ _ _.
Arguments name {double} _.
Arguments axis {double} _.
Arguments axis2 {double} _.

(** The plugin's SDF element: its [<model_state>] child, if any, as the
    [<joint_state>] children [FindElement] and [GetNextElement] walk, in
    document order. *)
Record PluginSdf (double : Type) : Type := mkPluginSdf {
  model_state : option (list (JointStateElem double))
}.
Arguments mkPluginSdf {double} _.
Arguments model_state {double} _.

(** [gz::math::Angle] as [Configure] uses it: a default-constructed
    angle, [SetDegree], [SetRadian] and [Radian]; and the literal [0.0].
    Nothing is said of the numbers themselves: the code moves them
    around and never branches on one. *)
Class MathAngle (double : Type) : Type := {
  Angle : Type;
  Angle_new : Angle;
  SetDegree : double -> Angle -> Angle;
  SetRadian : double -> Angle -> Angle;
  Radian : Angle -> double;
  zero : double
}.

(** The [EntityComponentManager] as [Configure] uses it, directly and
    through [Model]: [Model(e).Valid(_ecm)], [Model(e).Name(_ecm)],
    [Model(e).JointByName(_ecm, name)],
    [EntityHasComponentType(e, JointAxis::typeId)] and the same for
    [JointAxis2], and [SetComponentData] for the two reset components. *)
Class EntityComponentManager (double ecm : Type) : Type := {
  Valid : ecm -> Entity -> bool;
  Name : ecm -> Entity -> string;
  JointByName : ecm -> Entity -> string -> Entity;
  has_JointAxis : ecm -> Entity -> bool;
  has_JointAxis2 : ecm -> Entity -> bool;
  SetJointPositionReset : Entity -> list double -> ecm -> ecm;
  SetJointVelocityReset : Entity -> list double -> ecm -> ecm
}.

(** The lines [Configure] writes to [gzerr]. *)
Inductive Diagnostic : Type :=
| NotAModel
| NoModelState
| NoJointName
| JointNotFound (jointName modelName : string)
| NoJointAxis (jointName modelName : string).

(** The four locals of the loop body. *)
Record JointData (double : Type) : Type := mkJointData {
  jointPositionSet : bool;
  jointVelocitySet : bool;
  jointPosition : list double;
  jointVelocity : list double
}.
Arguments mkJointData {double} _ _ _ _.
Arguments jointPositionSet {double} _.
Arguments jointVelocitySet {double} _.
Arguments jointPosition {double} _.
Arguments jointVelocity {double} _.

(** A call of [SetComponentData] on one of the two reset components. *)
Inductive Write (double : Type) : Type :=
| PositionReset (jointEntity : Entity) (data : list double)
| VelocityReset (jointEntity : Entity) (data : list double).
Arguments PositionReset {double} _ _.
Arguments VelocityReset {double} _ _.

Definition joint_of {double : Type} (w : Write double) : Entity :=
  match w with PositionReset j _ | VelocityReset j _ => j end.

Definition data_of {double : Type} (w : Write double) : list double :=
  match w with PositionReset _ v | VelocityReset _ v => v end.

Definition is_PositionReset {double : Type} (w : Write double) : bool :=
  match w with PositionReset _ _ => true | VelocityReset _ _ => false end.

Section Configure.

Context {double : Type} {angle : MathAngle double}.

Definition JointData_new : JointData double :=
  {| jointPositionSet := false;
     jointVelocitySet := false;
     jointPosition := [];
     jointVelocity := [] |}.

(** The [math::Angle] local of one element: default-constructed, then
    set from the text when one was read, in degrees or in radians. The
    result is its [Radian()] and whether it was set. *)
Definition read_angle (e : ValueElem double) : double * bool :=
  let position := Angle_new in
  match text e with
  | Some v =>
      (Radian (if degrees e then SetDegree v position else SetRadian v position),
       true)
  | None => (Radian position, false)
  end.

(** The block that parses [<axis>]. *)
Definition read_axis (axisElem : option (AxisElem double)) (d : JointData double)
  : JointData double :=
  match axisElem with
  | None => d
  | Some a =>
      let d1 :=
        match position a with
        | None => d
        | Some positionElem =>
            let '(radian, set) := read_angle positionElem in
            {| jointPositionSet := if set then true else jointPositionSet d;
               jointVelocitySet := jointVelocitySet d;
               jointPosition := (jointPosition d ++ [radian])%list;
               jointVelocity := jointVelocity d |}
        end in
      match velocity a with
      | None => d1
      | Some velocityElem =>
          let '(radian, set) := read_angle velocityElem in
          {| jointPositionSet := jointPositionSet d1;
             jointVelocitySet := if set then true else jointVelocitySet d1;
             jointPosition := jointPosition d1;
             jointVelocity := (jointVelocity d1 ++ [radian])%list |}
      end
  end.

(** [push_back(0.0)] on an empty vector. *)
Definition pad_first_axis (v : list double) : list double :=
  match v with
  | [] => [zero]
  | _ :: _ => v
  end.

(** The block that parses [<axis2>], entered when the joint has a
    [JointAxis2] component. *)
Definition read_axis2 (axisElem : option (AxisElem double)) (d : JointData double)
  : JointData double :=
  match axisElem with
  | None => d
  | Some a =>
      let d1 :=
        match position a with
        | None => d
        | Some positionElem =>
            let '(radian, set) := read_angle positionElem in
            {| jointPositionSet := if set then true else jointPositionSet d;
               jointVelocitySet := jointVelocitySet d;
               jointPosition := (pad_first_axis (jointPosition d) ++ [radian])%list;
               jointVelocity := jointVelocity d |}
        end in
      match velocity a with
      | None => d1
      | Some velocityElem =>
          let '(radian, set) := read_angle velocityElem in
          {| jointPositionSet := jointPositionSet d1;
             jointVelocitySet := if set then true else jointVelocitySet d1;
             jointPosition := jointPosition d1;
             jointVelocity := (pad_first_axis (jointVelocity d1) ++ [radian])%list |}
      end
  end.

(** What one [<joint_state>] of a joint with a [JointAxis] component
    yields. *)
Definition read_joint_state (hasAxis2 : bool) (js : JointStateElem double)
  : JointData double :=
  let d := read_axis (axis js) JointData_new in
  if hasAxis2 then read_axis2 (axis2 js) d else d.

(** The vector the two axes of a [<joint_state>] give for one quantity,
    from the element of [<axis>] and the element of [<axis2>]: the first
    axis alone gives one entry; as soon as the second axis has an
    element there are two, with [0.0] for a first axis that has none. *)
Definition reset_vector (first second : option (ValueElem double)) : list double :=
  match first, second with
  | None, None => []
  | Some a, None => [fst (read_angle a)]
  | None, Some b => [zero; fst (read_angle b)]
  | Some a, Some b => [fst (read_angle a); fst (read_angle b)]
  end.

(** Whether that vector is written to the component: some element of
    the two had a text that was read. *)
Definition reset_written (first second : option (ValueElem double)) : bool :=
  match first with Some a => snd (read_angle a) | None => false end
  || match second with Some b => snd (read_angle b) | None => false end.

Context {ecm : Type} {manager : EntityComponentManager double ecm}.

(** One round of the loop over the [<joint_state>] elements: the ECM and
    the diagnostics so far, after this element. *)
Definition Configure_joint_state (model : Entity) (modelName : string)
  (acc : ecm * list Diagnostic) (js : JointStateElem double) : ecm * list Diagnostic :=
  let '(_ecm, log) := acc in
  match name js with
  | None => (_ecm, (log ++ [NoJointName])%list)
  | Some jointName =>
      let jointEntity := JointByName _ecm model jointName in
      if (jointEntity =? kNullEntity)%N then
        (_ecm, (log ++ [JointNotFound jointName modelName])%list)
      else if negb (has_JointAxis _ecm jointEntity) then
        (_ecm, (log ++ [NoJointAxis jointName modelName])%list)
      else
        let d := read_joint_state (has_JointAxis2 _ecm jointEntity) js in
        let ecm1 :=
          if jointPositionSet d
          then SetJointPositionReset jointEntity (jointPosition d) _ecm
          else _ecm in
        let ecm2 :=
          if jointVelocitySet d
          then SetJointVelocityReset jointEntity (jointVelocity d) ecm1
          else ecm1 in
        (ecm2, log)
  end.

(** [SetModelState::Configure]. The result is the model entity the
    plugin keeps, the ECM as the call leaves it, and what was written to
    [gzerr]. *)
Definition Configure (_entity : Entity) (_sdf : PluginSdf double) (_ecm : ecm)
  : Entity * ecm * list Diagnostic :=
  let model := _entity in
  let modelName := Name _ecm model in
  if negb (Valid _ecm model) then (model, _ecm, [NotAModel])
  else
    match model_state _sdf with
    | None => (model, _ecm, [NoModelState])
    | Some jointStates =>
        let '(ecm', log) :=
          foldl (Configure_joint_state model modelName) (_ecm, []) jointStates in
        (model, ecm', log)
    end.

(** [SetModelState::Reset]: the body is commented out. *)
Definition Reset (_ecm : ecm) : ecm := _ecm.

(** Carrying out a call of [SetComponentData]. *)
Definition perform (m : ecm) (w : Write double) : ecm :=
  match w with
  | PositionReset j v => SetJointPositionReset j v m
  | VelocityReset j v => SetJointVelocityReset j v m
  end.

(** The joint a [<joint_state>] is about, when the loop body gets past
    its three checks: it has a name, the model has a joint of that name,
    and that joint has a [JointAxis] component. *)
Definition target (model : Entity) (m : ecm) (js : JointStateElem double)
  : option Entity :=
  match name js with
  | None => None
  | Some jointName =>
      let jointEntity := JointByName m model jointName in
      if (jointEntity =? kNullEntity)%N then None
      else if has_JointAxis m jointEntity then Some jointEntity
      else None
  end.

(** The calls one [<joint_state>] leads to, by the answers of the ECM
    [m]. *)
Definition writes_of (model : Entity) (m : ecm) (js : JointStateElem double)
  : list (Write double) :=
  match target model m js with
  | None => []
  | Some j =>
      let d := read_joint_state (has_JointAxis2 m j) js in
      ((if jointPositionSet d then [PositionReset j (jointPosition d)] else []) ++
       (if jointVelocitySet d then [VelocityReset j (jointVelocity d)] else []))%list
  end.

(** Two states of the ECM that answer alike about joints: the joint of
    a name and the two axis components. *)
Definition same_joints (m m' : ecm) : Prop :=
  (forall e n, JointByName m' e n = JointByName m e n) /\
  (forall j, has_JointAxis m' j = has_JointAxis m j) /\
  (forall j, has_JointAxis2 m' j = has_JointAxis2 m j).

(** Setting the data of a reset component changes nothing about joints:
    what [Configure] relies on when it looks joints up between two
    calls of [SetComponentData]. *)
Definition resets_keep_joints : Prop :=
  forall (j : Entity) (v : list double) (m : ecm),
    same_joints m (SetJointPositionReset j v m) /\
    same_joints m (SetJointVelocityReset j v m).

End Configure.

Arguments resets_keep_joints {double} ecm {manager}.

End SetModelState.

(* ===================================================================== *)
(** ** More concrete states *)
(* ===================================================================== *)

Module MoreExamples.

(** The Server of a parallel download of [shapes.sdf], as its
    constructor leaves it. *)
Definition shapes_parallel_server : ServerPrivate :=
  match Server.Server_new Examples.E0 true None
          (Examples.config_of kSdfFile "shapes.sdf" true) with
  | Ok (_, _, s) => s
  | Stuck _ => ServerPrivate_new true (Examples.config_of kSdfFile "shapes.sdf" true)
  end.

(** Numbers as they are written, with the conversion left symbolic. *)
Inductive Number : Type :=
| Literal (digits : string)
| InRadians (degrees : Number).

#[global] Instance Number_angle : SetModelState.MathAngle Number :=
  {| SetModelState.Angle := Number;
     SetModelState.Angle_new := Literal "0.0";
     SetModelState.SetDegree := fun d _ => InRadians d;
     SetModelState.SetRadian := fun r _ => r;
     SetModelState.Radian := fun a => a;
     SetModelState.zero := Literal "0.0" |}.

(** An ECM with one model, entity [1], named [arm], with the joints
    [shoulder] (entity [2], one axis), [wrist] (entity [3], two axes)
    and [bracket] (entity [4], fixed). Its state is the list of the
    calls of [SetComponentData] it has seen. *)
Definition arm_joint (n : string) : Entity :=
  if String.eqb n "shoulder" then 2%N
  else if String.eqb n "wrist" then 3%N
  else if String.eqb n "bracket" then 4%N
  else kNullEntity.

#[global] Instance arm_ecm :
  SetModelState.EntityComponentManager Number (list (SetModelState.Write Number)) :=
  {| SetModelState.Valid := fun _ e => (e =? 1)%N;
     SetModelState.Name := fun _ e => if (e =? 1)%N then "arm" else EmptyString;
     SetModelState.JointByName :=
       fun _ e n => if (e =? 1)%N then arm_joint n else kNullEntity;
     SetModelState.has_JointAxis := fun _ j => (j =? 2)%N || (j =? 3)%N;
     SetModelState.has_JointAxis2 := fun _ j => (j =? 3)%N;
     SetModelState.SetJointPositionReset :=
       fun j v m => (m ++ [SetModelState.PositionReset j v])%list;
     SetModelState.SetJointVelocityReset :=
       fun j v m => (m ++ [SetModelState.VelocityReset j v])%list |}.

Definition value (isDegrees : bool) (digits : string) : SetModelState.ValueElem Number :=
  SetModelState.mkValueElem isDegrees (Some (Literal digits)).

(** [<joint_state name="shoulder"><axis><position degrees="true">90
    </position></axis></joint_state>] *)
Definition shoulder_state : SetModelState.JointStateElem Number :=
  SetModelState.mkJointStateElem (Some "shoulder")
    (Some (SetModelState.mkAxisElem (Some (value true "90")) None)) None.

(** A [<joint_state>] of the wrist with a velocity for its second axis
    only. *)
Definition wrist_state : SetModelState.JointStateElem Number :=
  SetModelState.mkJointStateElem (Some "wrist") None
    (Some (SetModelState.mkAxisElem None (Some (value false "0.5")))).

(** A second [<joint_state>] of the shoulder, in radians. *)
Definition shoulder_again : SetModelState.JointStateElem Number :=
  SetModelState.mkJointStateElem (Some "shoulder")
    (Some (SetModelState.mkAxisElem (Some (value false "1.57")) None)) None.

Definition bracket_state : SetModelState.JointStateElem Number :=
  SetModelState.mkJointStateElem (Some "bracket")
    (Some (SetModelState.mkAxisElem (Some (value false "1")) None)) None.

Definition nameless_state : SetModelState.JointStateElem Number :=
  SetModelState.mkJointStateElem None None None.

Definition arm_sdf : SetModelState.PluginSdf Number :=
  SetModelState.mkPluginSdf
    (Some [shoulder_state; nameless_state; wrist_state; bracket_state;
           shoulder_again]).

End MoreExamples.

(** Split a goal into its conjuncts, and nothing else. *)
Ltac conj := repeat match goal with |- _ /\ _ => split end.

(* ===================================================================== *)
(** ** Properties of Stopwatch.cc *)
(* ===================================================================== *)

(** C10. [Stopwatch::Start] with [reset = false] on a running stopwatch
    returns false and leaves the stopwatch as it was, field for field;
    [Stopwatch::Stop] on a stopwatch that is not running returns false
    and leaves it as it was. *)
Theorem Stopwatch_rejected_call_changes_nothing
  (now1 now2 now : Z) (w : Stopwatch.Implementation) :
  (Stopwatch.running w = true ->
   Stopwatch.Start now1 now2 false w = (false, w)) /\
  (Stopwatch.running w = false ->
   Stopwatch.Stop now w = (false, w)).
Proof.
  split; intros Hrun.
  - unfold Stopwatch.Start. cbn [negb]. now rewrite Hrun.
  - unfold Stopwatch.Stop. now rewrite Hrun.
Qed.

Lemma Stopwatch_rejected_call_witness :
  Stopwatch.Start 20 21 false Examples.running_watch
    = (false, Examples.running_watch) /\
  Stopwatch.Stop 20 Stopwatch.Stopwatch_new = (false, Stopwatch.Stopwatch_new).
Proof.
  split.
  - apply (proj1 (Stopwatch_rejected_call_changes_nothing 20 21 20 Examples.running_watch)).
    reflexivity.
  - apply (proj2 (Stopwatch_rejected_call_changes_nothing 20 21 20 Stopwatch.Stopwatch_new)).
    reflexivity.
Defined.

(* ===================================================================== *)
(** ** Properties of Server.cc: the world-indexed accessors *)
(* ===================================================================== *)

Section Indexing.

Variable s : ServerPrivate.

Lemma at_index_in_range (i : nat) :
  i < length (simRunners s) ->
  exists r, simRunners s !! i = Some r /\ at_index (simRunners s) i = Ok r.
Proof.
  intros Hlt. destruct (lookup_lt_is_Some_2 _ _ Hlt) as [r Hr].
  exists r. split; [exact Hr|]. unfold at_index. now rewrite Hr.
Qed.

Lemma guard_out_of_range (i : nat) :
  length (simRunners s) <= i -> (i <? length (simRunners s))%nat = false.
Proof. intros Hge. apply Nat.ltb_ge. exact Hge. Qed.

Lemma guard_in_range (i : nat) :
  i < length (simRunners s) -> (i <? length (simRunners s))%nat = true.
Proof. intros Hlt. apply Nat.ltb_lt. exact Hlt. Qed.

End Indexing.

(** C3. For a world index at or past the number of Runners, each
    world-indexed accessor of the Server returns its "no such world"
    value ([nullopt], [false], or nothing for [SetUpdatePeriod]), leaves
    the Server as it was, and does not subscript the Runner collection. *)
Theorem out_of_range_index_is_answered_empty
  (s : ServerPrivate) (i : nat) (name : string) (e : Entity)
  (rec p : bool) (period : Z) (sys : string) :
  length (simRunners s) <= i ->
  Server.Running_at i s = Ok None /\
  Server.Paused i s = Ok None /\
  Server.IterationCount i s = Ok None /\
  Server.EntityCount i s = Ok None /\
  Server.SystemCount i s = Ok None /\
  Server.HasEntity name i s = Ok false /\
  Server.EntityByName name i s = Ok None /\
  Server.RequestRemoveEntity_name name rec i s = Ok (false, s) /\
  Server.RequestRemoveEntity_entity e rec i s = Ok (false, s) /\
  Server.SetPaused p i s = Ok (false, s) /\
  Server.SetUpdatePeriod period i s = Ok s /\
  Server.AddSystem_plugin sys i s
    = Ok (if running s then Some false else None, s) /\
  Server.AddSystem_shared sys i s
    = Ok (if running s then Some false else None, s).
Proof.
  intros Hge. pose proof (guard_out_of_range s i Hge) as Hguard.
  unfold Server.Running_at, Server.Paused, Server.IterationCount,
    Server.EntityCount, Server.SystemCount, Server.HasEntity,
    Server.EntityByName, Server.RequestRemoveEntity_name,
    Server.RequestRemoveEntity_entity, Server.SetPaused,
    Server.SetUpdatePeriod, Server.AddSystem_plugin, Server.AddSystem_shared,
    Server.AddSystem.
  rewrite Hguard.
  repeat split; destruct (running s); reflexivity.
Qed.

Lemma out_of_range_index_witness :
  Server.Running_at 1 Examples.idle_server = Ok None /\
  Server.Paused 1 Examples.idle_server = Ok None /\
  Server.IterationCount 1 Examples.idle_server = Ok None /\
  Server.EntityCount 1 Examples.idle_server = Ok None /\
  Server.SystemCount 1 Examples.idle_server = Ok None /\
  Server.HasEntity "default" 1 Examples.idle_server = Ok false /\
  Server.EntityByName "default" 1 Examples.idle_server = Ok None /\
  Server.RequestRemoveEntity_name "default" true 1 Examples.idle_server
    = Ok (false, Examples.idle_server) /\
  Server.RequestRemoveEntity_entity 1%N true 1 Examples.idle_server
    = Ok (false, Examples.idle_server) /\
  Server.SetPaused true 1 Examples.idle_server = Ok (false, Examples.idle_server) /\
  Server.SetUpdatePeriod 5 1 Examples.idle_server = Ok Examples.idle_server /\
  Server.AddSystem_plugin "physics" 1 Examples.idle_server
    = Ok (None, Examples.idle_server) /\
  Server.AddSystem_shared "physics" 1 Examples.idle_server
    = Ok (None, Examples.idle_server).
Proof.
  apply (out_of_range_index_is_answered_empty Examples.idle_server 1
           "default" 1%N true true 5%Z "physics").
  vm_compute. lia.
Defined.

(** Every world-indexed accessor returns at every index, in range or
    not: the subscript is only evaluated under its guard. *)
Theorem accessors_never_subscript_out_of_bounds
  (s : ServerPrivate) (i : nat) (name : string) (e : Entity)
  (rec p : bool) (period : Z) (sys : SystemHandle) :
  (exists v, Server.Running_at i s = Ok v) /\
  (exists v, Server.Paused i s = Ok v) /\
  (exists v, Server.IterationCount i s = Ok v) /\
  (exists v, Server.EntityCount i s = Ok v) /\
  (exists v, Server.SystemCount i s = Ok v) /\
  (exists v, Server.HasEntity name i s = Ok v) /\
  (exists v, Server.EntityByName name i s = Ok v) /\
  (exists v, Server.RequestRemoveEntity_name name rec i s = Ok v) /\
  (exists v, Server.RequestRemoveEntity_entity e rec i s = Ok v) /\
  (exists v, Server.SetPaused p i s = Ok v) /\
  (exists v, Server.SetUpdatePeriod period i s = Ok v) /\
  (exists v, Server.AddSystem sys i s = Ok v).
Proof.
  unfold Server.Running_at, Server.Paused, Server.IterationCount,
    Server.EntityCount, Server.SystemCount, Server.HasEntity,
    Server.EntityByName, Server.RequestRemoveEntity_name,
    Server.RequestRemoveEntity_entity, Server.SetPaused,
    Server.SetUpdatePeriod, Server.AddSystem.
  destruct (Nat.ltb_spec i (length (simRunners s))) as [Hlt | Hge].
  - destruct (at_index_in_range s i Hlt) as (r & _ & ->). cbn.
    destruct (Runner.RequestRemoveEntity_name name rec r),
      (Runner.RequestRemoveEntity_entity e rec r), (running s);
      repeat split; eexists; reflexivity.
  - destruct (running s); repeat split; eexists; reflexivity.
Qed.

(* ===================================================================== *)
(** ** Runners are idle whenever the Server is looked at *)
(* ===================================================================== *)

Section Idle.

Lemma idle_fmap (f : SimulationRunner -> SimulationRunner)
  (rs : list SimulationRunner) :
  (forall r, r_running (f r) = r_running r) ->
  Forall idle rs -> Forall idle (f <$> rs).
Proof.
  intros Hf Hrs. apply Forall_fmap. eapply Forall_impl; [exact Hrs|].
  intros r Hr. unfold idle, compose in *. now rewrite Hf.
Qed.

Lemma idle_AddWorlds (root : sdf.Root) (js : list nat) (r : SimulationRunner) :
  r_running (foldl (fun r j => Runner.AddWorld (sdf.WorldByIndex root j) r) r js)
    = r_running r.
Proof.
  revert r. induction js as [| j js IH]; intros r; [reflexivity|].
  cbn [foldl]. rewrite IH. unfold Runner.AddWorld.
  now destruct (sdf.WorldByIndex root j).
Qed.

Lemma idle_after_Runner_Run (fuel : nat) (n : N) (r r' : SimulationRunner) (b : bool) :
  Runner.Run fuel n r = Some (b, r') -> idle r'.
Proof.
  unfold Runner.Run. destruct (Runner.Run_loop fuel n 0 _); [|discriminate].
  cbn. intros [= _ <-]. reflexivity.
Qed.

Lemma idle_after_run_runners (fuel : nat) (n : N) (rs rs' : list SimulationRunner)
  (b : bool) :
  Server.run_runners fuel n rs = Some (b, rs') -> Forall idle rs'.
Proof.
  revert rs' b. induction rs as [| r rs IH]; intros rs' b; cbn [Server.run_runners].
  - intros [= _ <-]. constructor.
  - destruct (Runner.Run fuel n r) as [[b1 r1]|] eqn:Hr; [|discriminate]. cbn.
    destruct (Server.run_runners fuel n rs) as [[b2 rs2]|] eqn:Hrs; [|discriminate].
    cbn. intros [= _ <-]. constructor.
    + eapply idle_after_Runner_Run; exact Hr.
    + eapply IH; reflexivity.
Qed.

Lemma idle_DownloadModels (E : Externals) (world world' : option string)
  (s s' : ServerPrivate) (b : bool) :
  Server.DownloadModels E world s = Ok (b, world', s') ->
  all_idle s -> all_idle s'.
Proof.
  unfold Server.DownloadModels, Server.DownloadModels_end, all_idle.
  intros Hcall Hidle.
  destruct (Source (config s)).
  - destruct (DefaultWorld.World world DefaultWorld.default_name) as [doc w1].
    destruct (LoadSdfString E doc) as [errors root].
    destruct (negb (errors_empty errors)); injection Hcall as _ _ <-; exact Hidle.
  - cbn in Hcall. injection Hcall as _ _ <-. exact Hidle.
  - destruct (string_empty _); [injection Hcall as _ _ <-; exact Hidle|].
    destruct (DownloadInParallel (config s) && _); [discriminate|].
    destruct (Load E _) as [errors root].
    destruct (negb (DownloadInParallel (config s)));
      [injection Hcall as _ _ <-; exact Hidle|].
    destruct (sdf.WorldCount _ =? 0)%nat; [injection Hcall as _ _ <-; exact Hidle|].
    destruct (length _ =? 0)%nat; [discriminate|].
    destruct (negb (errors_empty errors)); injection Hcall as _ _ <-; cbn;
      (apply idle_fmap; [intros r; cbn; apply idle_AddWorlds | exact Hidle]).
  - destruct (LoadSdfString E (SdfString (config s))) as [errors root].
    destruct (negb (errors_empty errors)); injection Hcall as _ _ <-; exact Hidle.
Qed.

Lemma idle_insert (s : ServerPrivate) (i : nat) (r' : SimulationRunner) :
  all_idle s -> idle r' ->
  all_idle (set_simRunners (<[i := r']> (simRunners s)) s).
Proof. intros Hs Hr. unfold all_idle. cbn. now apply Forall_insert. Qed.

Lemma idle_at_index (s : ServerPrivate) (i : nat) (r : SimulationRunner) :
  all_idle s -> at_index (simRunners s) i = Ok r -> idle r.
Proof.
  unfold all_idle, at_index. intros Hs.
  destruct (simRunners s !! i) as [r0|] eqn:Hr; [|discriminate].
  intros [= <-]. eapply Forall_lookup_1; eassumption.
Qed.

Lemma idle_SetUpdatePeriod (period : Z) (i : nat) (s s' : ServerPrivate) :
  Server.SetUpdatePeriod period i s = Ok s' -> all_idle s -> all_idle s'.
Proof.
  unfold Server.SetUpdatePeriod. intros Hcall Hidle.
  destruct (i <? length (simRunners s))%nat; [|now injection Hcall as <-].
  destruct (at_index (simRunners s) i) as [r|] eqn:Hr; [|discriminate].
  cbn in Hcall. injection Hcall as <-.
  apply idle_insert; [exact Hidle|]. exact (idle_at_index s i r Hidle Hr).
Qed.

Lemma idle_Init_end (E : Externals) (errors : sdf.Errors)
  (world world' : option string) (s s' : ServerPrivate) (o : Server.InitOutcome) :
  Server.Init_end E errors world s = Ok (o, world', s') ->
  all_idle s -> all_idle s'.
Proof.
  unfold Server.Init_end. intros Hcall Hidle.
  destruct (negb (errors_empty errors)); [now injection Hcall as _ _ <-|].
  set (s1 := if UseLogRecord (config s) then _ else s) in Hcall.
  assert (Hidle2 : all_idle (Server.CreateEntities s1)).
  { unfold all_idle, Server.CreateEntities. cbn. apply Forall_app. split.
    - subst s1. now destruct (UseLogRecord (config s)).
    - apply Forall_fmap, Forall_forall. intros w _. reflexivity. }
  destruct (UpdatePeriod (config (Server.CreateEntities s1))) as [period|].
  - destruct (Server.SetUpdatePeriod period 0 (Server.CreateEntities s1))
      as [s3|] eqn:Hset; [|discriminate].
    cbn in Hcall. injection Hcall as _ _ <-.
    eapply idle_SetUpdatePeriod; eassumption.
  - cbn in Hcall. now injection Hcall as _ _ <-.
Qed.

Lemma idle_Init (E : Externals) (world world' : option string)
  (s s' : ServerPrivate) (o : Server.InitOutcome) :
  Server.Init E world s = Ok (o, world', s') -> all_idle s -> all_idle s'.
Proof.
  unfold Server.Init. intros Hcall Hidle.
  destruct (DownloadInParallel (config s)).
  - destruct (WorldNamesFromFile E _) as [errors2 [| name0 names]].
    + now injection Hcall as _ _ <-.
    + destruct (DefaultWorld.World world name0) as [doc w1].
      destruct (LoadSdfString E doc) as [errors root].
      eapply idle_Init_end; [exact Hcall | exact Hidle].
  - destruct (Server.DownloadModels E world s) as [[[ok w1] s1]|] eqn:Hdl;
      [|discriminate].
    cbn -[Server.Init_end] in Hcall.
    pose proof (idle_DownloadModels _ _ _ _ _ _ Hdl Hidle) as Hidle1.
    destruct (negb ok); [now injection Hcall as _ _ <-|].
    eapply idle_Init_end; eassumption.
Qed.

Lemma idle_Run (fuel : nat) (blocking : bool) (n : N) (p b : bool)
  (s s' : ServerPrivate) :
  Server.Run fuel blocking n p s = Ok (b, s') -> all_idle s -> all_idle s'.
Proof.
  unfold Server.Run. intros Hcall Hidle.
  assert (Hpaused : all_idle (set_simRunners (Runner.SetPaused p <$> simRunners s) s)).
  { unfold all_idle. cbn. apply idle_fmap; [reflexivity | exact Hidle]. }
  destruct (negb (sigHandlerInitialized _)); [now injection Hcall as _ <-|].
  destruct (running _); [now injection Hcall as _ <-|].
  destruct blocking.
  - unfold Server.ServerPrivate_Run in Hcall.
    destruct (Server.run_runners fuel n _) as [[b1 rs]|] eqn:Hrs; [|discriminate].
    cbn in Hcall. injection Hcall as _ <-. unfold all_idle. cbn.
    eapply idle_after_run_runners; exact Hrs.
  - destruct (runThread _); injection Hcall as _ <-; exact Hpaused.
Qed.

(** Every Runner of a reachable Server is outside its loop: a Runner is
    marked running only inside [SimulationRunner::Run], which the Server
    enters and leaves within one blocking [Run] or on the control
    thread. *)
Lemma Runners_idle_while_stopped (E : Externals) (s : ServerPrivate) :
  reachable E s -> all_idle s.
Proof.
  induction 1 as [sig world world' c o s Hnew | s s' _ IH Hstep].
  - unfold Server.Server_new in Hnew.
    eapply idle_Init; [exact Hnew|]. constructor.
  - destruct Hstep as [fuel blocking n p b Hcall | fuel p b Hcall | p i b Hcall
                      | period i Hcall | sys i b Hcall | name rec i b Hcall
                      | e rec i b Hcall | world world' b Hcall
                      | fuel n b rs _ _ Hrs ->].
    + eapply idle_Run; eassumption.
    + unfold Server.RunOnce in Hcall. eapply idle_Run; [exact Hcall|].
      destruct p; [|exact IH]. unfold all_idle. cbn.
      apply idle_fmap; [reflexivity | exact IH].
    + unfold Server.SetPaused in Hcall.
      destruct (i <? length (simRunners s))%nat; [|now injection Hcall as _ <-].
      destruct (at_index (simRunners s) i) as [r|] eqn:Hr; [|discriminate].
      cbn in Hcall. injection Hcall as _ <-.
      apply idle_insert; [exact IH|]. exact (idle_at_index s i r IH Hr).
    + eapply idle_SetUpdatePeriod; eassumption.
    + unfold Server.AddSystem in Hcall.
      destruct (running s); [now injection Hcall as _ <-|].
      destruct (i <? length (simRunners s))%nat; [|now injection Hcall as _ <-].
      destruct (at_index (simRunners s) i) as [r|] eqn:Hr; [|discriminate].
      cbn in Hcall. injection Hcall as _ <-.
      apply idle_insert; [exact IH|].
      pose proof (idle_at_index s i r IH Hr) as Hri. unfold idle in *.
      unfold Runner.AddSystem. now rewrite Hri.
    + unfold Server.RequestRemoveEntity_name in Hcall.
      destruct (i <? length (simRunners s))%nat; [|now injection Hcall as _ <-].
      destruct (at_index (simRunners s) i) as [r|] eqn:Hr; [|discriminate].
      cbn in Hcall. pose proof (idle_at_index s i r IH Hr) as Hri.
      unfold Runner.RequestRemoveEntity_name in Hcall.
      destruct (Runner.EntityByName name r); injection Hcall as _ <-;
        apply idle_insert; assumption.
    + unfold Server.RequestRemoveEntity_entity in Hcall.
      destruct (i <? length (simRunners s))%nat; [|now injection Hcall as _ <-].
      destruct (at_index (simRunners s) i) as [r|] eqn:Hr; [|discriminate].
      cbn in Hcall. pose proof (idle_at_index s i r IH Hr) as Hri.
      unfold Runner.RequestRemoveEntity_entity in Hcall.
      destruct (Runner.HasEntityId e r); injection Hcall as _ <-;
        apply idle_insert; assumption.
    + eapply idle_DownloadModels; eassumption.
    + unfold all_idle. cbn. eapply idle_after_run_runners; exact Hrs.
Qed.

End Idle.

(** C4. [Server::AddSystem] (either overload: both are the one body at a
    plugin handle or at a shared system) returns false whenever the
    Server's running flag is set. When the flag is clear and the world
    index is within the Runner collection it returns true and hands the
    system to that Runner's own [AddSystem]; the Runner is then outside
    its loop (as every Runner of a reachable Server is) and appends the
    system to its plugin list. *)
Theorem AddSystem_false_while_running_true_when_stopped
  (E : Externals) (sys : SystemHandle) (i : nat) (s : ServerPrivate) :
  (running s = true -> Server.AddSystem sys i s = Ok (Some false, s)) /\
  (running s = false -> i < length (simRunners s) ->
   exists r r',
     simRunners s !! i = Some r /\
     Server.AddSystem sys i s
       = Ok (Some true, set_simRunners (<[i := r']> (simRunners s)) s) /\
     r' = snd (Runner.AddSystem sys r) /\
     (idle r \/ reachable E s -> r_systems r' = (r_systems r ++ [sys])%list)).
Proof.
  split.
  - intros Hrun. unfold Server.AddSystem. now rewrite Hrun.
  - intros Hrun Hlt. unfold Server.AddSystem. rewrite Hrun.
    rewrite (guard_in_range s i Hlt).
    destruct (at_index_in_range s i Hlt) as (r & Hr & Ha).
    exists r, (snd (Runner.AddSystem sys r)). rewrite Ha. cbn.
    repeat split; [exact Hr|].
    intros Hidle.
    assert (Hri : r_running r = false).
    { destruct Hidle as [Hri | Hreach]; [exact Hri|].
      exact (idle_at_index s i r (Runners_idle_while_stopped E s Hreach) Ha). }
    unfold Runner.AddSystem. now rewrite Hri.
Qed.

Lemma AddSystem_witness :
  Server.AddSystem (SystemPlugin "physics") 0 Examples.busy_server
    = Ok (Some false, Examples.busy_server) /\
  exists r r',
    simRunners Examples.idle_server !! 0 = Some r /\
    Server.AddSystem (SystemPlugin "physics") 0 Examples.idle_server
      = Ok (Some true,
            set_simRunners (<[0 := r']> (simRunners Examples.idle_server))
              Examples.idle_server) /\
    r' = snd (Runner.AddSystem (SystemPlugin "physics") r) /\
    (idle r \/ reachable Examples.E0 Examples.idle_server ->
     r_systems r' = (r_systems r ++ [SystemPlugin "physics"])%list).
Proof.
  split.
  - apply (proj1 (AddSystem_false_while_running_true_when_stopped Examples.E0
                    (SystemPlugin "physics") 0 Examples.busy_server)).
    reflexivity.
  - apply (proj2 (AddSystem_false_while_running_true_when_stopped Examples.E0
                    (SystemPlugin "physics") 0 Examples.idle_server)).
    + reflexivity.
    + vm_compute. lia.
Defined.

(** A Server built by its constructor is reachable, and a system added
    to it while stopped shows in [SystemCount] at once. *)
Example AddSystem_on_fresh_server :
  reachable Examples.E0 Examples.idle_server /\
  Server.SystemCount 0 Examples.idle_server = Ok (Some 0) /\
  ('(_, s') ← Server.AddSystem_plugin "physics" 0 Examples.idle_server;
   Server.SystemCount 0 s') = Ok (Some 1).
Proof.
  split; [|split; reflexivity].
  eapply (reachable_new Examples.E0 true None _ Examples.no_source).
  reflexivity.
Qed.

(* ===================================================================== *)
(** ** Properties of Server.cc: Run and RunOnce *)
(* ===================================================================== *)

(** C1, as the code has it. A call of [Server::Run] on a Server whose
    running flag is set returns false, whatever its arguments, and
    changes one thing: the pause request is applied first, so every
    Runner's paused flag becomes [_paused]. The running flag, the control
    thread, the number of Runners and every other field of every Runner
    are as before. *)
Theorem Run_while_running_only_applies_pause
  (fuel : nat) (blocking : bool) (iterations : N) (paused : bool)
  (s : ServerPrivate) :
  running s = true ->
  Server.Run fuel blocking iterations paused s
    = Ok (false, set_simRunners (Runner.SetPaused paused <$> simRunners s) s).
Proof.
  intros Hrun. unfold Server.Run. cbn [sigHandlerInitialized set_simRunners running].
  rewrite Hrun. now destruct (sigHandlerInitialized s).
Qed.

Lemma Run_while_running_witness :
  Server.Run 3 true 1 true Examples.busy_server
    = Ok (false,
          set_simRunners (Runner.SetPaused true <$> simRunners Examples.busy_server)
            Examples.busy_server).
Proof.
  apply (Run_while_running_only_applies_pause 3 true 1 true Examples.busy_server).
  reflexivity.
Defined.

(** C1, as stated, fails: on a running Server with one unpaused Runner,
    [Run(true, 1, true)] is rejected and yet leaves that Runner paused. *)
Lemma Run_while_running_changes_paused :
  running Examples.busy_server = true /\
  Server.Paused 0 Examples.busy_server = Ok (Some false) /\
  exists s',
    Server.Run 3 true 1 true Examples.busy_server = Ok (false, s') /\
    Server.Paused 0 s' = Ok (Some true) /\
    s' <> Examples.busy_server.
Proof.
  split; [reflexivity|]. split; [reflexivity|].
  eexists. split; [reflexivity|]. split; [reflexivity|].
  intros Heq. discriminate Heq.
Qed.

(** A non-blocking [Run] returns at once; what it returns and what it
    leaves behind depends only on the three things it checks. *)
Lemma Run_nonblocking_cases
  (fuel : nat) (iterations : N) (paused : bool) (s : ServerPrivate) :
  let s1 := set_simRunners (Runner.SetPaused paused <$> simRunners s) s in
  Server.Run fuel false iterations paused s =
    if sigHandlerInitialized s && negb (running s)
       && match runThread s with None => true | Some _ => false end
    then Ok (true, set_running true (spawn_runThread s1))
    else Ok (false, s1).
Proof.
  unfold Server.Run. cbn.
  destruct (sigHandlerInitialized s), (running s), (runThread s); reflexivity.
Qed.

Lemma Run_nonblocking_turned_down
  (fuel : nat) (iterations : N) (paused : bool) (s : ServerPrivate) :
  turns_down s ->
  Server.Run fuel false iterations paused s
    = Ok (false, set_simRunners (Runner.SetPaused paused <$> simRunners s) s).
Proof.
  intros Hdown. rewrite Run_nonblocking_cases. cbv zeta.
  destruct Hdown as [Hsig | [Hrun | Hthread]].
  - now rewrite Hsig.
  - rewrite Hrun. now rewrite andb_false_r.
  - destruct (runThread s); [|contradiction]. now rewrite andb_false_r.
Qed.

Lemma Run_nonblocking_first
  (fuel : nat) (iterations : N) (paused : bool) (s : ServerPrivate) :
  exists b1 s1,
    Server.Run fuel false iterations paused s = Ok (b1, s1) /\
    turns_down s1 /\
    (threadsSpawned s1 <> threadsSpawned s ->
     runThread s = None /\ b1 = true /\ threadsSpawned s1 = S (threadsSpawned s)) /\
    (one_control_thread s -> one_control_thread s1).
Proof.
  rewrite Run_nonblocking_cases. cbv zeta.
  destruct (sigHandlerInitialized s) eqn:Hsig, (running s) eqn:Hrun,
    (runThread s) as [t|] eqn:Hthread; cbn [andb negb];
    eexists _, _; (split; [reflexivity|]);
    unfold turns_down, one_control_thread; cbn;
    rewrite ?Hsig, ?Hrun, ?Hthread;
    repeat split; intros; try congruence; try lia; auto.
  all: right; right; discriminate.
Qed.

Lemma progress_keeps_thread (s s' : ServerPrivate) :
  control_thread_progress s s' ->
  runThread s' = runThread s /\ threadsSpawned s' = threadsSpawned s.
Proof.
  intros Hp. inversion Hp; subst; cbn; split; reflexivity.
Qed.

Lemma progress_keeps_turning_down (s s' : ServerPrivate) :
  control_thread_progress s s' -> turns_down s -> turns_down s'.
Proof.
  intros Hp Hdown. inversion Hp as [s0 | s0 rs b Hthread Hrun]; subst.
  - exact Hdown.
  - right. right. exact Hthread.
Qed.

(** C5. Two non-blocking calls of [Server::Run] in succession: the first
    returns; whatever the control thread has done in between, the second
    returns false and spawns nothing. A call spawns a control thread only
    if the stored thread is the null one, so a Server that starts with no
    control thread never has more than one. *)
Theorem second_nonblocking_Run_returns_false
  (fuel1 fuel2 : nat) (n1 n2 : N) (p1 p2 : bool) (s : ServerPrivate) :
  exists b1 s1,
    Server.Run fuel1 false n1 p1 s = Ok (b1, s1) /\
    (threadsSpawned s1 <> threadsSpawned s ->
     runThread s = None /\ b1 = true /\ threadsSpawned s1 = S (threadsSpawned s)) /\
    forall s1',
      control_thread_progress s1 s1' ->
      exists s2,
        Server.Run fuel2 false n2 p2 s1' = Ok (false, s2) /\
        runThread s2 = runThread s1 /\
        threadsSpawned s2 = threadsSpawned s1 /\
        (one_control_thread s -> one_control_thread s2 /\ threadsSpawned s2 <= 1).
Proof.
  destruct (Run_nonblocking_first fuel1 n1 p1 s) as (b1 & s1 & Hrun1 & Hdown & Hspawn & Hone).
  exists b1, s1. split; [exact Hrun1|]. split; [exact Hspawn|].
  intros s1' Hp.
  destruct (progress_keeps_thread _ _ Hp) as [Ht Hn].
  pose proof (progress_keeps_turning_down _ _ Hp Hdown) as Hdown'.
  eexists. split; [apply Run_nonblocking_turned_down; exact Hdown'|].
  cbn. rewrite Ht, Hn. repeat split.
  - unfold one_control_thread. cbn. rewrite Ht, Hn. apply Hone. assumption.
  - specialize (Hone H). unfold one_control_thread in Hone.
    destruct (runThread s1); lia.
Qed.

Lemma second_nonblocking_Run_witness :
  exists b1 s1,
    Server.Run 0 false 0 false Examples.idle_server = Ok (b1, s1) /\
    (threadsSpawned s1 <> threadsSpawned Examples.idle_server ->
     runThread Examples.idle_server = None /\ b1 = true /\
     threadsSpawned s1 = S (threadsSpawned Examples.idle_server)) /\
    forall s1',
      control_thread_progress s1 s1' ->
      exists s2,
        Server.Run 0 false 0 false s1' = Ok (false, s2) /\
        runThread s2 = runThread s1 /\
        threadsSpawned s2 = threadsSpawned s1 /\
        (one_control_thread Examples.idle_server ->
         one_control_thread s2 /\ threadsSpawned s2 <= 1).
Proof.
  apply (second_nonblocking_Run_returns_false 0 0 0 0 false false Examples.idle_server).
Defined.

Lemma Run_loop_unfold (fuel : nat) (iterations done : N) (r : SimulationRunner) :
  Runner.Run_loop fuel iterations done r =
    if negb (iterations =? 0)%N && (iterations <=? done)%N then Some r
    else
      match fuel with
      | O => None
      | S k =>
          let '(stepped, r') := Runner.Step r in
          Runner.Run_loop k iterations (if stepped then (done + 1)%N else done) r'
      end.
Proof. destruct fuel; reflexivity. Qed.

Lemma Runner_Run_one_step (fuel : nat) (r : SimulationRunner) :
  can_step r ->
  exists r', Runner.Run (S fuel) 1 r = Some (true, r') /\ stepped_once r r'.
Proof.
  intros Hcan. unfold Runner.Run.
  rewrite Run_loop_unfold. cbn [N.eqb N.leb N.compare negb andb].
  assert (Hstep : r_paused r && negb (r_nextStepBlockingPaused r) = false).
  { destruct Hcan as [-> | ->]; [reflexivity | apply andb_false_r]. }
  unfold Runner.Step. cbn [Runner.set_running r_paused r_nextStepBlockingPaused].
  rewrite Hstep. rewrite Run_loop_unfold. cbn.
  eexists. split; [reflexivity|]. repeat split.
Qed.

Lemma run_runners_one_step (fuel : nat) (rs : list SimulationRunner) :
  Forall can_step rs ->
  exists rs',
    Server.run_runners (S fuel) 1 rs = Some (true, rs') /\
    Forall2 stepped_once rs rs'.
Proof.
  induction 1 as [| r rs Hr Hrs IH].
  - exists []. split; [reflexivity | constructor].
  - destruct (Runner_Run_one_step fuel r Hr) as (r' & Hrun & Hstep).
    destruct IH as (rs' & Hall & Hsteps).
    exists (r' :: rs'). split.
    + cbn [Server.run_runners]. rewrite Hrun. cbn. rewrite Hall. reflexivity.
    + constructor; assumption.
Qed.

Lemma IterationCount_lookup (i : nat) (n : N) (s : ServerPrivate) :
  Server.IterationCount i s = Ok (Some n) <->
  exists r, simRunners s !! i = Some r /\ r_iterations r = n.
Proof.
  unfold Server.IterationCount, at_index. split.
  - destruct (i <? length (simRunners s))%nat; [|discriminate].
    destruct (simRunners s !! i) as [r|]; [|discriminate].
    cbn. intros [= <-]. now exists r.
  - intros (r & Hr & <-).
    rewrite (guard_in_range s i (lookup_lt_Some _ _ _ Hr)), Hr. reflexivity.
Qed.

Lemma Paused_lookup (i : nat) (r : SimulationRunner) (s : ServerPrivate) :
  simRunners s !! i = Some r -> Server.Paused i s = Ok (Some (r_paused r)).
Proof.
  intros Hr. unfold Server.Paused, at_index.
  rewrite (guard_in_range s i (lookup_lt_Some _ _ _ Hr)), Hr. reflexivity.
Qed.

Lemma incr_u64_below (n : N) : (n + 1 < 2 ^ 64)%N -> incr_u64 n = (n + 1)%N.
Proof. intros Hlt. unfold incr_u64. now apply N.mod_small. Qed.

Lemma Run_blocking_one_step (fuel : nat) (p : bool) (s : ServerPrivate) :
  sigHandlerInitialized s = true ->
  running s = false ->
  Forall can_step (Runner.SetPaused p <$> simRunners s) ->
  exists rs',
    Server.Run (S fuel) true 1 p s
      = Ok (true,
            set_running false
              (set_simRunners rs'
                 (set_running true
                    (set_simRunners (Runner.SetPaused p <$> simRunners s) s)))) /\
    Forall2 stepped_once (Runner.SetPaused p <$> simRunners s) rs'.
Proof.
  intros Hsig Hrun Hready.
  destruct (run_runners_one_step fuel _ Hready) as (rs' & Hall & Hsteps).
  exists rs'. split; [|exact Hsteps].
  unfold Server.Run, Server.ServerPrivate_Run.
  cbn [sigHandlerInitialized running simRunners set_simRunners set_running].
  rewrite Hsig, Hrun. cbn [negb]. rewrite Hall. reflexivity.
Qed.

Lemma IterationCount_fmap (f : SimulationRunner -> SimulationRunner)
  (i : nat) (s s' : ServerPrivate) :
  (forall r, r_iterations (f r) = r_iterations r) ->
  simRunners s' = f <$> simRunners s ->
  Server.IterationCount i s' = Server.IterationCount i s.
Proof.
  intros Hf Hrs. unfold Server.IterationCount, at_index.
  rewrite Hrs, length_fmap, list_lookup_fmap.
  destruct (i <? length (simRunners s))%nat; [|reflexivity].
  destruct (simRunners s !! i) as [r|]; [|reflexivity].
  cbn. unfold Runner.IterationCount. now rewrite Hf.
Qed.

(** C6, as the code has it. [Server::RunOnce(p)] is
    [Server::Run(true, 1, p)] on the Server in which, when [p] is set,
    every Runner's next step has first been marked as a forced
    blocking-paused step. The single step is made when [Run] does not
    turn the call down: on a Server whose signal handlers are armed and
    that is not running, the call returns with every Runner having made
    exactly one step: its iteration count is one more (as a [uint64_t])
    and its paused flag is [p]. On any other Server the call returns
    false and no Runner steps: the marks and the pause request have been
    applied, and every iteration count is as before. *)
Theorem RunOnce_is_one_forced_blocking_step
  (fuel : nat) (p : bool) (s : ServerPrivate) :
  Server.RunOnce fuel p s = RunOnce_spec fuel p s /\
  (sigHandlerInitialized s = true -> running s = false ->
   exists b s',
     Server.RunOnce (S fuel) p s = Ok (b, s') /\
     length (simRunners s') = length (simRunners s) /\
     forall i n,
       Server.IterationCount i s = Ok (Some n) ->
       Server.IterationCount i s' = Ok (Some (incr_u64 n)) /\
       Server.Paused i s' = Ok (Some p) /\
       ((n + 1 < 2 ^ 64)%N -> incr_u64 n = (n + 1)%N)) /\
  (sigHandlerInitialized s = false \/ running s = true ->
   let s0 := if p then mark_forced_step s else s in
   let s' := set_simRunners (Runner.SetPaused p <$> simRunners s0) s0 in
   Server.RunOnce fuel p s = Ok (false, s') /\
   forall i, Server.IterationCount i s' = Server.IterationCount i s).
Proof.
  split; [|split].
  - unfold Server.RunOnce, RunOnce_spec, mark_forced_step. now destruct p.
  - intros Hsig Hrun.
    assert (Hready :
      Forall can_step
        (Runner.SetPaused p <$>
           simRunners (if p then mark_forced_step s else s))).
    { apply Forall_forall. intros r Hin.
      apply list_elem_of_fmap in Hin as (r1 & -> & Hin1).
      unfold can_step. destruct p; [right | now left].
      cbn in Hin1. apply list_elem_of_fmap in Hin1 as (r0 & -> & _). reflexivity. }
    assert (Hsame : Server.RunOnce (S fuel) p s = RunOnce_spec (S fuel) p s).
    { unfold Server.RunOnce, RunOnce_spec, mark_forced_step. now destruct p. }
    rewrite Hsame. unfold RunOnce_spec.
    destruct (Run_blocking_one_step fuel p (if p then mark_forced_step s else s))
      as (rs' & Hcall & Hsteps); [now destruct p | now destruct p | exact Hready |].
    exists true. eexists. split; [exact Hcall|]. split.
    + cbn. rewrite <- (Forall2_length _ _ _ Hsteps), length_fmap.
      destruct p; cbn; now rewrite ?length_fmap.
    + intros i n Hn. apply IterationCount_lookup in Hn as (r & Hr & <-).
      assert (Hr2 : exists r2,
                 (Runner.SetPaused p <$>
                    simRunners (if p then mark_forced_step s else s)) !! i = Some r2 /\
                 r_iterations r2 = r_iterations r /\ r_paused r2 = p).
      { destruct p; cbn; rewrite !list_lookup_fmap, Hr; cbn; eexists; repeat split. }
      destruct Hr2 as (r2 & Hr2 & Hit & Hp).
      destruct (Forall2_lookup_l _ _ _ _ _ Hsteps Hr2) as (r3 & Hr3 & Hi3 & Hp3 & _).
      split; [|split].
      * apply IterationCount_lookup. exists r3. cbn. split; [exact Hr3|]. congruence.
      * rewrite <- Hp, <- Hp3. apply Paused_lookup. exact Hr3.
      * apply incr_u64_below.
  - intros Hdown. cbv zeta. split.
    + assert (Hsame : Server.RunOnce fuel p s = RunOnce_spec fuel p s)
        by (unfold Server.RunOnce, RunOnce_spec, mark_forced_step; now destruct p).
      rewrite Hsame. unfold RunOnce_spec, Server.Run.
      cbn [sigHandlerInitialized running set_simRunners].
      assert (Hsig0 : sigHandlerInitialized (if p then mark_forced_step s else s)
                      = sigHandlerInitialized s) by now destruct p.
      assert (Hrun0 : running (if p then mark_forced_step s else s) = running s)
        by now destruct p.
      rewrite Hsig0, Hrun0.
      destruct Hdown as [-> | ->]; [reflexivity|].
      now destruct (sigHandlerInitialized s).
    + intros i.
      apply (IterationCount_fmap
               (fun r => Runner.SetPaused p
                           (if p then Runner.SetNextStepAsBlockingPaused true r else r)));
        [intros r; now destruct p|].
      destruct p; cbn [simRunners set_simRunners mark_forced_step].
      * now rewrite <- list_fmap_compose.
      * reflexivity.
Qed.

Lemma RunOnce_witness :
  exists b s',
    Server.RunOnce 1 true Examples.idle_server = Ok (b, s') /\
    length (simRunners s') = length (simRunners Examples.idle_server) /\
    forall i n,
      Server.IterationCount i Examples.idle_server = Ok (Some n) ->
      Server.IterationCount i s' = Ok (Some (incr_u64 n)) /\
      Server.Paused i s' = Ok (Some true) /\
      ((n + 1 < 2 ^ 64)%N -> incr_u64 n = (n + 1)%N).
Proof.
  apply (proj1 (proj2 (RunOnce_is_one_forced_blocking_step 0 true Examples.idle_server)));
    reflexivity.
Defined.

(** C6, as stated, fails: the Server that a non-blocking [Run] has set
    running turns [RunOnce(true)] down. The call returns false, the one
    Runner is at iteration 0 as before, not at 1, and its next step is
    left marked as forced. *)
Lemma RunOnce_while_running_makes_no_step :
  reachable Examples.E0 Examples.busy_server /\
  running Examples.busy_server = true /\
  Server.IterationCount 0 Examples.busy_server = Ok (Some 0%N) /\
  exists s',
    Server.RunOnce 5 true Examples.busy_server = Ok (false, s') /\
    Server.IterationCount 0 s' = Ok (Some 0%N) /\
    Server.IterationCount 0 s' <> Ok (Some (0 + 1)%N) /\
    r_nextStepBlockingPaused <$> simRunners s' !! 0%nat = Some true.
Proof.
  split.
  { eapply reachable_step.
    - eapply (reachable_new Examples.E0 true None _ Examples.no_source). reflexivity.
    - eapply (step_Run _ _ _ 0 false 0%N false true). reflexivity. }
  split; [reflexivity|]. split; [reflexivity|].
  eexists. split; [reflexivity|]. split; [reflexivity|]. split; [|reflexivity].
  intros Heq. discriminate Heq.
Qed.

(** The same call, evaluated: one paused Runner at iteration 0 is at
    iteration 1, still paused, after [RunOnce(true)]; without the forced
    step the paused loop of [Run(true, 1, true)] makes no step however
    long it is watched. *)
Example RunOnce_paused_evaluated :
  ('(_, s') ← Server.RunOnce 1 true Examples.idle_server;
   n ← Server.IterationCount 0 s';
   q ← Server.Paused 0 s';
   Ok (n, q)) = Ok (Some 1%N, Some true) /\
  Server.Run 50 true 1 true Examples.idle_server = Stuck OutOfFuel.
Proof. split; reflexivity. Qed.

(* ===================================================================== *)
(** ** Properties of Server.cc: DefaultWorld and world resolution *)
(* ===================================================================== *)

Lemma World_initialised (w name : string) :
  DefaultWorld.World (Some w) name = (w, Some w).
Proof. reflexivity. Qed.

Lemma World_calls_keep_static (w : string) (names : list string) :
  foldl (fun st n => snd (DefaultWorld.World st n)) (Some w) names = Some w.
Proof. induction names as [| n names IH]; [reflexivity | exact IH]. Qed.

(** C9. [DefaultWorld::World] builds its string on the first call of the
    process only: after a first call with [first], every later call
    returns the document built from [first], whatever name it is given
    and however many calls came in between, and leaves the static alone.
    So a Server with no source leaves the static at the document of the
    world "default", and the provisional world a later parallel-download
    [Init] loads is the static's document, not one built from the name
    found in its own file. *)
Theorem DefaultWorld_first_call_wins
  (first name : string) (between : list string)
  (E : Externals) (s0 s : ServerPrivate) :
  (let world :=
     foldl (fun st n => snd (DefaultWorld.World st n))
       (snd (DefaultWorld.World None first)) between in
   DefaultWorld.World world name
     = (DefaultWorld.build first, Some (DefaultWorld.build first))) /\
  (Source (config s0) = kNone ->
   exists ok s0',
     Server.DownloadModels E None s0
       = Ok (ok, Some (DefaultWorld.build "default"), s0')) /\
  (forall w errs name0 rest,
     DownloadInParallel (config s) = true ->
     WorldNamesFromFile E (FindFile E (SdfFile (config s))) = (errs, name0 :: rest) ->
     Server.Init E (Some w) s
       = Server.Init_end E (fst (LoadSdfString E w)) (Some w)
           (set_sdfRoot (snd (LoadSdfString E w)) (set_downloadModelsThread true s))).
Proof.
  split; [|split].
  - cbv zeta. cbn [DefaultWorld.World snd].
    rewrite World_calls_keep_static. apply World_initialised.
  - intros Hsrc. unfold Server.DownloadModels. rewrite Hsrc.
    cbn [DefaultWorld.World]. unfold DefaultWorld.default_name.
    destruct (LoadSdfString E (DefaultWorld.build "default")) as [errors root].
    unfold Server.DownloadModels_end.
    destruct (negb (errors_empty errors)); eexists _, _; reflexivity.
  - intros w errs name0 rest Hpar Hnames. unfold Server.Init.
    rewrite Hpar, Hnames. cbn [DefaultWorld.World].
    now destruct (LoadSdfString E w).
Qed.

Lemma DefaultWorld_first_call_witness :
  DefaultWorld.World (Some (DefaultWorld.build "default")) "shapes"
    = (DefaultWorld.build "default", Some (DefaultWorld.build "default")) /\
  (exists ok s0',
     Server.DownloadModels Examples.E0 None
       (ServerPrivate_new true Examples.no_source)
       = Ok (ok, Some (DefaultWorld.build "default"), s0')) /\
  Server.Init Examples.E0 (Some (DefaultWorld.build "default"))
    (ServerPrivate_new true (Examples.config_of kSdfFile "shapes.sdf" true))
    = Server.Init_end Examples.E0 []
        (Some (DefaultWorld.build "default"))
        (set_sdfRoot {| sdf.Worlds := [Examples.default_world] |}
           (set_downloadModelsThread true
              (ServerPrivate_new true (Examples.config_of kSdfFile "shapes.sdf" true)))).
Proof.
  pose proof (DefaultWorld_first_call_wins "default" "shapes" [] Examples.E0
                (ServerPrivate_new true Examples.no_source)
                (ServerPrivate_new true (Examples.config_of kSdfFile "shapes.sdf" true)))
    as (Hfirst & Hnone & Hinit).
  split; [exact Hfirst|]. split; [apply Hnone; reflexivity|].
  apply (Hinit (DefaultWorld.build "default") [] "shapes" []); reflexivity.
Defined.

(** The same, evaluated: in a process whose first Server had no source,
    the Runner a parallel download of [shapes.sdf] starts with is the
    one of a world named "default". *)
Example provisional_world_named_after_first_call :
  ('(_, world, _) ← Server.Server_new Examples.E0 true None
                       Examples.no_source;
   '(_, _, s) ← Server.Server_new Examples.E0 true world
                   (Examples.config_of kSdfFile "shapes.sdf" true);
   Ok (sdf.Name <$> sdf.Worlds (sdfRoot s)))
  = Ok ["default"].
Proof. reflexivity. Qed.

(** The synchronous file branch of [DownloadModels] returns at the check
    of [DownloadInParallel], before the error list is looked at. *)
Lemma DownloadModels_file_sync (E : Externals) (world : option string)
  (s : ServerPrivate) :
  Source (config s) = kSdfFile ->
  DownloadInParallel (config s) = false ->
  string_empty (resolveSdfWorldFile E (SdfFile (config s)) (ResourceCache (config s)))
    = false ->
  Server.DownloadModels E world s
    = Ok (true, world,
          set_sdfRoot
            (snd (Load E (resolveSdfWorldFile E (SdfFile (config s))
                            (ResourceCache (config s))))) s).
Proof.
  intros Hsrc Hpar Hpath. unfold Server.DownloadModels.
  rewrite Hsrc, Hpath, Hpar. cbn [andb negb].
  now destruct (Load E _).
Qed.

(** C2, against the code. A file source with parallel downloading off,
    whose path resolves and whose parse reports an error: [DownloadModels]
    returns true, and [Init] goes on through [CreateEntities] and leaves a
    Runner behind. *)
Theorem file_parse_errors_do_not_abort_Init :
  let cfg := Examples.config_of kSdfFile "broken.sdf" false in
  let s0 := ServerPrivate_new true cfg in
  resolveSdfWorldFile Examples.E0 (SdfFile cfg) (ResourceCache cfg)
    = "/worlds/broken.sdf" /\
  fst (Load Examples.E0 "/worlds/broken.sdf")
    = ["Unable to find uri[model://missing]"] /\
  (exists s1, Server.DownloadModels Examples.E0 None s0 = Ok (true, None, s1)) /\
  (exists s2,
     Server.Init Examples.E0 None s0 = Ok (Server.Initialized, None, s2) /\
     length (simRunners s2) = 1 /\
     Server.EntityCount 0 s2 = Ok (Some 2)).
Proof.
  cbv zeta. split; [reflexivity|]. split; [reflexivity|]. split.
  - eexists. reflexivity.
  - eexists. split; [reflexivity|]. split; reflexivity.
Qed.

(** What does abort [Init] when the download is synchronous: a file path
    that resolves to nothing, and a string source whose parse reports
    errors. [Init] returns before [CreateEntities] and the Runner
    collection is as it was. *)
Lemma sync_resolution_failure_aborts_Init (E : Externals)
  (world : option string) (s : ServerPrivate) :
  DownloadInParallel (config s) = false ->
  (Source (config s) = kSdfFile /\
   resolveSdfWorldFile E (SdfFile (config s)) (ResourceCache (config s))
     = EmptyString)
  \/ (Source (config s) = kSdfString /\
      fst (LoadSdfString E (SdfString (config s))) <> []) ->
  exists s',
    Server.DownloadModels E world s = Ok (false, world, s') /\
    Server.Init E world s = Ok (Server.Aborted, world, s') /\
    simRunners s' = simRunners s.
Proof.
  intros Hpar [[Hsrc Hpath] | [Hsrc Herr]].
  - exists s. unfold Server.Init, Server.DownloadModels.
    rewrite Hpar, Hsrc, Hpath. cbn. repeat split.
  - unfold Server.Init, Server.DownloadModels. rewrite Hpar, Hsrc.
    destruct (LoadSdfString E (SdfString (config s))) as [errors root].
    cbn [fst] in Herr. destruct errors as [| e errors]; [contradiction|].
    eexists. cbn. repeat split.
Qed.

Lemma sync_resolution_failure_witness :
  exists s',
    Server.DownloadModels Examples.E0 None
      (ServerPrivate_new true (Examples.config_of kSdfFile "nowhere.sdf" false))
      = Ok (false, None, s') /\
    Server.Init Examples.E0 None
      (ServerPrivate_new true (Examples.config_of kSdfFile "nowhere.sdf" false))
      = Ok (Server.Aborted, None, s') /\
    simRunners s' = [].
Proof.
  apply (sync_resolution_failure_aborts_Init Examples.E0 None
           (ServerPrivate_new true (Examples.config_of kSdfFile "nowhere.sdf" false))).
  - reflexivity.
  - left. split; reflexivity.
Defined.

(** C7, against the code. In a process whose first Server was a parallel
    download of a file whose world is named "shapes", a later Server with
    no source is initialised with one world, and that world is named
    "shapes". *)
Theorem no_source_world_named_by_earlier_Server :
  exists (sA sB : ServerPrivate),
    Server.Server_new Examples.E0 true None
      (Examples.config_of kSdfFile "shapes.sdf" true)
      = Ok (Server.Initialized, Some (DefaultWorld.build "shapes"), sA) /\
    Server.Server_new Examples.E0 true (Some (DefaultWorld.build "shapes"))
      Examples.no_source
      = Ok (Server.Initialized, Some (DefaultWorld.build "shapes"), sB) /\
    sdf.Name <$> sdf.Worlds (sdfRoot sB) = ["shapes"] /\
    sdf.Name <$> sdf.Worlds (sdfRoot sB) <> ["default"] /\
    Server.HasEntity "default" 0 sB = Ok false /\
    Server.HasEntity "shapes" 0 sB = Ok true.
Proof.
  eexists _, _.
  split; [reflexivity|]. split; [reflexivity|].
  split; [reflexivity|]. split; [discriminate|].
  split; reflexivity.
Qed.

(** In a process that has not called [DefaultWorld::World] before, a
    Server with no source gets whatever the parser makes of the document
    of the world "default"; with a parser that reads it, that is one
    world of that name and nothing in it. *)
Lemma no_source_in_fresh_process (E : Externals) (s : ServerPrivate)
  (root : sdf.Root) :
  Source (config s) = kNone ->
  LoadSdfString E (DefaultWorld.build "default") = ([], root) ->
  Server.DownloadModels E None s
    = Ok (true, Some (DefaultWorld.build "default"), set_sdfRoot root s).
Proof.
  intros Hsrc Hload. unfold Server.DownloadModels. rewrite Hsrc.
  cbn [DefaultWorld.World]. unfold DefaultWorld.default_name.
  now rewrite Hload.
Qed.

Lemma no_source_in_fresh_process_witness :
  Server.DownloadModels Examples.E0 None
    (ServerPrivate_new true Examples.no_source)
  = Ok (true, Some (DefaultWorld.build "default"),
        set_sdfRoot {| sdf.Worlds := [Examples.default_world] |}
          (ServerPrivate_new true Examples.no_source)).
Proof.
  apply (no_source_in_fresh_process Examples.E0
           (ServerPrivate_new true Examples.no_source)
           {| sdf.Worlds := [Examples.default_world] |}); reflexivity.
Defined.

(** C8, against the code. A parallel download of a file that is found
    and yields a world together with a parser error: [Init] starts a
    Runner on the provisional world; the download task then returns
    false, and by then it has given every Runner the worlds and marked it
    as having fetched all includes. *)
Theorem failed_parallel_download_marks_Runners :
  exists (world : option string) (s s' : ServerPrivate),
    Server.Server_new Examples.E0 true None
      (Examples.config_of kSdfFile "broken.sdf" true)
      = Ok (Server.Initialized, world, s) /\
    length (simRunners s) = 1 /\
    Forall (fun r => r_fetchedAllIncludes r = false) (simRunners s) /\
    fst (Load Examples.E0 "/worlds/broken.sdf")
      = ["Unable to find uri[model://missing]"] /\
    Server.DownloadModels Examples.E0 world s = Ok (false, world, s') /\
    length (simRunners s') = 1 /\
    Forall (fun r => r_fetchedAllIncludes r = true) (simRunners s').
Proof.
  eexists _, _, _.
  split; [reflexivity|]. split; [reflexivity|].
  split; [repeat constructor|]. split; [reflexivity|].
  split; [reflexivity|]. split; [reflexivity|].
  repeat constructor.
Qed.

(** The two failures of a parallel download that do leave the Runners
    alone: a path that resolves to nothing, and a file with no world. *)
Lemma parallel_download_failure_before_injection (E : Externals)
  (world : option string) (s : ServerPrivate) :
  Source (config s) = kSdfFile ->
  DownloadInParallel (config s) = true ->
  simRunners s <> [] ->
  let path := resolveSdfWorldFile E (SdfFile (config s)) (ResourceCache (config s)) in
  path = EmptyString \/ sdf.Worlds (snd (Load E path)) = [] ->
  exists s',
    Server.DownloadModels E world s = Ok (false, world, s') /\
    simRunners s' = simRunners s.
Proof.
  intros Hsrc Hpar Hrunners path Hfail. unfold Server.DownloadModels.
  rewrite Hsrc, Hpar. fold path.
  destruct (string_empty path) eqn:Hpath.
  { exists s. split; reflexivity. }
  destruct Hfail as [Hempty | Hworlds].
  { rewrite Hempty in Hpath. discriminate. }
  destruct (simRunners s) as [| r rs] eqn:Hrs; [contradiction|].
  cbn [length Nat.eqb andb].
  destruct (Load E path) as [errors root]. cbn [snd] in Hworlds.
  cbn [negb]. unfold sdf.WorldCount. cbn [sdfRoot set_sdfRoot].
  rewrite Hworlds. cbn. eexists. split; [reflexivity|]. cbn. now rewrite Hrs.
Qed.

Lemma parallel_download_failure_witness :
  exists s',
    Server.DownloadModels Examples.E0 None Examples.lost_parallel_server
      = Ok (false, None, s') /\
    simRunners s' = simRunners Examples.lost_parallel_server.
Proof.
  apply (parallel_download_failure_before_injection Examples.E0 None
           Examples.lost_parallel_server).
  - reflexivity.
  - reflexivity.
  - discriminate.
  - left. reflexivity.
Defined.

(* ===================================================================== *)
(** ** More properties of Stopwatch.cc *)
(* ===================================================================== *)

Lemma wrap64_in64 (z : Z) : StopwatchCalls.in64 z -> Stopwatch.wrap64 z = z.
Proof.
  unfold StopwatchCalls.in64, Stopwatch.wrap64. intros Hz.
  rewrite Z.mod_small; lia.
Qed.

(** [operator==] decides equality of the five members, and [operator!=]
    is its negation. *)
Theorem Stopwatch_eqb_decides_equality (a b : Stopwatch.Implementation) :
  (Stopwatch.eqb a b = true <-> a = b) /\
  (Stopwatch.neqb a b = true <-> a <> b).
Proof.
  assert (Heq : Stopwatch.eqb a b = true <-> a = b).
  { unfold Stopwatch.eqb. destruct a as [ra sa ta da ua], b as [rb sb tb db ub].
    cbn. rewrite !andb_true_iff, !Z.eqb_eq, Bool.eqb_true_iff. split.
    - intros ((((-> & ->) & ->) & ->) & ->). reflexivity.
    - intros [= -> -> -> -> ->]. repeat split. }
  split; [exact Heq|].
  unfold Stopwatch.neqb. rewrite negb_true_iff. split.
  - intros Hf Hab. apply Heq in Hab. congruence.
  - intros Hne. apply not_true_is_false. intros He.
    apply Heq in He. contradiction.
Qed.

Section SteadyClock.

Import StopwatchCalls.

Local Ltac zlia := unfold Stopwatch.rep_zero, Stopwatch.rep_min, in64 in *; lia.

Local Ltac fin :=
  conj; try assumption; try zlia;
  try (left; first [assumption | reflexivity]); try (right; conj; zlia).

Lemma tidy_new (t : Z) : tidy t Stopwatch.Stopwatch_new.
Proof. unfold tidy. cbn. fin. Qed.

Lemma steady_app (t : Z) (zs zs' : list Z) :
  steady t (zs ++ zs') <-> steady t zs /\ steady (last_reading t zs) zs'.
Proof.
  revert t. induction zs as [| z zs IH]; intros t; cbn.
  - tauto.
  - rewrite IH. unfold last_reading. cbn. tauto.
Qed.

Lemma steady_last (t : Z) (zs : list Z) :
  steady t zs -> (t <= last_reading t zs)%Z /\
  (t < 2 ^ 62 -> last_reading t zs < 2 ^ 62)%Z.
Proof.
  revert t. induction zs as [| z zs IH]; intros t; cbn.
  - unfold last_reading. cbn. lia.
  - intros [Hz Hzs]. destruct (IH z Hzs) as [Hle Hlt].
    unfold last_reading in *. cbn. lia.
Qed.

Lemma Start_as_new (now1 now2 : Z) (r : bool) (w : Stopwatch.Implementation) :
  r = true \/ w = Stopwatch.Stopwatch_new ->
  Stopwatch.Start now1 now2 r w
    = (true,
       {| Stopwatch.running := true;
          Stopwatch.startTime := now2;
          Stopwatch.stopTime := Stopwatch.rep_min;
          Stopwatch.stopDuration := Stopwatch.rep_zero;
          Stopwatch.runDuration := Stopwatch.rep_zero |}).
Proof. intros [-> | ->]; [|destruct r]; reflexivity. Qed.

(** One call keeps the stopwatch tidy. *)
Lemma tidy_apply (t : Z) (c : call) (w : Stopwatch.Implementation) :
  (0 <= t < 2 ^ 62)%Z ->
  steady t (readings c) ->
  tidy t w ->
  tidy (last_reading t (readings c)) (apply c w).
Proof.
  intros Ht Hsteady Htidy. destruct c as [now1 now2 r | now |].
  - cbn in Hsteady. destruct Hsteady as (H1 & H2 & _).
    unfold last_reading. cbn [readings foldl apply].
    assert (Hfresh : forall r' w', r' = true \/ w' = Stopwatch.Stopwatch_new ->
                       tidy now2 (snd (Stopwatch.Start now1 now2 r' w'))).
    { intros r' w' Hnew. rewrite (Start_as_new now1 now2 r' w' Hnew).
      unfold tidy. cbn. fin. }
    destruct r; [apply Hfresh; now left|].
    unfold Stopwatch.Start. cbn [negb].
    destruct w as [run st sp sd rd]. unfold tidy in Htidy |- *. cbn in Htidy |- *.
    destruct Htidy as (Hr & Hs & H). destruct run; cbn.
    + destruct H as (Hst & Hsp & Hsum). fin.
    + destruct H as [Hnew | (Hst & Hsp & Hsum)].
      * injection Hnew as -> -> -> ->. rewrite Z.eqb_refl. cbn. fin.
      * destruct (st =? sp)%Z eqn:Heq; cbn.
        -- fin.
        -- rewrite (wrap64_in64 (now1 - sp)) by zlia.
           rewrite wrap64_in64 by zlia. fin.
  - cbn in Hsteady. destruct Hsteady as (H1 & _).
    unfold last_reading. cbn [readings foldl apply].
    unfold Stopwatch.Stop.
    destruct w as [run st sp sd rd]. unfold tidy in Htidy |- *. cbn in Htidy |- *.
    destruct Htidy as (Hr & Hs & H). destruct run; cbn.
    + destruct H as (Hst & Hsp & Hsum).
      rewrite (wrap64_in64 (now - st)) by zlia.
      rewrite wrap64_in64 by zlia. fin.
    + destruct H as [Hnew | (Hst & Hsp & Hsum)]; fin.
  - unfold last_reading. cbn. apply tidy_new.
Qed.

Lemma tidy_run (cs : list call) (t : Z) (w : Stopwatch.Implementation) :
  (0 <= t < 2 ^ 62)%Z ->
  steady t (concat (readings <$> cs)) ->
  tidy t w ->
  tidy (last_reading t (concat (readings <$> cs))) (run cs w).
Proof.
  revert t w. induction cs as [| c cs IH]; intros t w Ht Hsteady Htidy.
  - exact Htidy.
  - cbn [fmap list_fmap concat] in Hsteady |- *.
    apply steady_app in Hsteady as [Hc Hcs].
    destruct (steady_last _ _ Hc) as [Hle Hlt].
    pose proof (tidy_apply t c w Ht Hc Htidy) as Hstep.
    specialize (IH (last_reading t (readings c)) (apply c w)
                  ltac:(lia) Hcs Hstep).
    unfold run in *. cbn [foldl].
    unfold last_reading in *. rewrite foldl_app. exact IH.
Qed.

(** A stopwatch driven from new by a steady clock never reports a
    negative time: after any sequence of [Start], [Stop] and [Reset]
    calls, at any later reading, the elapsed run time and the elapsed
    stop time are both non-negative and together no more than the
    reading itself. The clock is steady when its readings start at or
    after 0, never go back and stay under 2^62 ticks. *)
Theorem Stopwatch_elapsed_times_of_steady_clock (cs : list call) (now : Z) :
  steady 0 (concat (readings <$> cs) ++ [now]) ->
  let w := run cs Stopwatch.Stopwatch_new in
  (0 <= Stopwatch.ElapsedRunTime now w)%Z /\
  (0 <= Stopwatch.ElapsedStopTime now w)%Z /\
  (Stopwatch.ElapsedRunTime now w + Stopwatch.ElapsedStopTime now w <= now)%Z.
Proof.
  intros Hsteady w. apply steady_app in Hsteady as [Hcs Hnow].
  pose proof (tidy_run cs 0 Stopwatch.Stopwatch_new ltac:(lia) Hcs (tidy_new 0))
    as Htidy.
  fold w in Htidy. destruct (steady_last _ _ Hcs) as [Hle Hlt].
  cbn in Hnow. destruct Hnow as [Hnow _].
  set (t := last_reading 0 (concat (readings <$> cs))) in *.
  unfold Stopwatch.ElapsedRunTime, Stopwatch.ElapsedStopTime.
  destruct w as [run st sp sd rd]. unfold tidy in Htidy. cbn in Htidy |- *.
  destruct Htidy as (Hr & Hs & H). destruct run.
  - destruct H as (Hst & Hsp & Hsum).
    rewrite (wrap64_in64 (now - st)) by zlia.
    rewrite wrap64_in64 by zlia. fin.
  - destruct H as [Hnew | (Hst & Hsp & Hsum)].
    + injection Hnew as -> -> -> ->. rewrite Z.ltb_irrefl. fin.
    + destruct (Stopwatch.rep_min <? sp)%Z eqn:Hmin.
      * rewrite (wrap64_in64 (now - sp)) by zlia.
        rewrite wrap64_in64 by zlia. fin.
      * apply Z.ltb_ge in Hmin. zlia.
Qed.

Lemma Stopwatch_elapsed_times_witness :
  let w := run [CallStart 5 5 false; CallStop 9; CallStart 12 13 false]
             Stopwatch.Stopwatch_new in
  (0 <= Stopwatch.ElapsedRunTime 20 w)%Z /\
  (0 <= Stopwatch.ElapsedStopTime 20 w)%Z /\
  (Stopwatch.ElapsedRunTime 20 w + Stopwatch.ElapsedStopTime 20 w <= 20)%Z.
Proof.
  apply (Stopwatch_elapsed_times_of_steady_clock
           [CallStart 5 5 false; CallStop 9; CallStart 12 13 false] 20).
  cbn. lia.
Defined.

(** One session on a stopped stopwatch under a steady clock: [Start]
    at the readings [n1], [n2] and [Stop] at [n3] add [n3 - n2] to the
    run duration; the stop duration grows by [n1] minus the old stop
    time, unless the start and stop time points of the stopwatch were
    equal (as they are on a new one, and also after a [Stop] taken at
    the same reading as its [Start]), in which case it stays as it
    was. *)
Theorem Stopwatch_session_adds_durations
  (t n1 n2 n3 : Z) (w : Stopwatch.Implementation) :
  (0 <= t < 2 ^ 62)%Z ->
  tidy t w ->
  Stopwatch.running w = false ->
  steady t [n1; n2; n3] ->
  let w' := run [CallStart n1 n2 false; CallStop n3] w in
  Stopwatch.running w' = false /\
  Stopwatch.startTime w' = n2 /\
  Stopwatch.stopTime w' = n3 /\
  Stopwatch.runDuration w' = (Stopwatch.runDuration w + (n3 - n2))%Z /\
  Stopwatch.stopDuration w' =
    (if (Stopwatch.startTime w =? Stopwatch.stopTime w)%Z
     then Stopwatch.stopDuration w
     else Stopwatch.stopDuration w + (n1 - Stopwatch.stopTime w))%Z /\
  tidy n3 w'.
Proof.
  intros Ht Htidy Hstopped Hsteady.
  pose proof (tidy_run [CallStart n1 n2 false; CallStop n3] t w Ht) as Hafter.
  cbn [fmap list_fmap concat readings app] in Hafter.
  specialize (Hafter Hsteady Htidy). unfold last_reading in Hafter. cbn [foldl] in Hafter.
  cbn in Hsteady. destruct Hsteady as (H1 & H2 & H3 & _).
  intros w'. subst w'. conj; try exact Hafter; clear Hafter.
  all: unfold run; cbn [foldl apply]; unfold Stopwatch.Start, Stopwatch.Stop;
    destruct w as [run st sp sd rd]; cbn in Hstopped; subst run;
    unfold tidy in Htidy; cbn in Htidy; destruct Htidy as (Hr & Hs & H);
    cbn [negb Stopwatch.running snd Stopwatch.startTime Stopwatch.stopTime
           Stopwatch.stopDuration Stopwatch.runDuration];
    try reflexivity.
  - destruct (st =? sp)%Z; cbn;
      (rewrite (wrap64_in64 (n3 - n2)) by zlia);
      destruct H as [Hnew | (Hst & Hsp & Hsum)];
      try (injection Hnew as -> -> -> ->); rewrite wrap64_in64 by zlia;
      reflexivity.
  - destruct (st =? sp)%Z eqn:Heq; cbn; [reflexivity|].
    destruct H as [Hnew | (Hst & Hsp & Hsum)].
    + injection Hnew as -> -> -> ->. rewrite Z.eqb_refl in Heq. discriminate.
    + rewrite (wrap64_in64 (n1 - sp)) by zlia. rewrite wrap64_in64 by zlia.
      reflexivity.
Qed.

Lemma Stopwatch_session_witness :
  let w := run [CallStart 1 2 false; CallStop 7] Stopwatch.Stopwatch_new in
  let w' := run [CallStart 10 11 false; CallStop 15] w in
  Stopwatch.running w' = false /\
  Stopwatch.startTime w' = 11%Z /\
  Stopwatch.stopTime w' = 15%Z /\
  Stopwatch.runDuration w' = (Stopwatch.runDuration w + (15 - 11))%Z /\
  Stopwatch.stopDuration w' =
    (if (Stopwatch.startTime w =? Stopwatch.stopTime w)%Z
     then Stopwatch.stopDuration w
     else Stopwatch.stopDuration w + (10 - Stopwatch.stopTime w))%Z /\
  tidy 15 w'.
Proof.
  apply (Stopwatch_session_adds_durations 7 10 11 15
           (run [CallStart 1 2 false; CallStop 7] Stopwatch.Stopwatch_new)).
  - lia.
  - apply (tidy_run [CallStart 1 2 false; CallStop 7] 0 Stopwatch.Stopwatch_new);
      [lia | cbn; lia | apply tidy_new].
  - reflexivity.
  - cbn. lia.
Defined.

(** The session evaluated, and the edge case of it: a [Stop] taken at
    the very reading of its [Start] leaves both time points equal, and
    the time spent stopped after it is not counted by the next
    [Start]. *)
Example Stopwatch_sessions_evaluated :
  let w := run [CallStart 1 2 false; CallStop 7; CallStart 10 11 false; CallStop 15]
             Stopwatch.Stopwatch_new in
  let q := run [CallStart 1 2 false; CallStop 2; CallStart 10 11 false; CallStop 15]
             Stopwatch.Stopwatch_new in
  (Stopwatch.runDuration w, Stopwatch.stopDuration w) = (9, 3)%Z /\
  (Stopwatch.runDuration q, Stopwatch.stopDuration q) = (4, 0)%Z.
Proof. split; reflexivity. Qed.

End SteadyClock.

(* ===================================================================== *)
(** ** More properties of Server.cc *)
(* ===================================================================== *)

Lemma only_Runner_changed_insert (i : nat) (r' : SimulationRunner) (s : ServerPrivate) :
  only_Runner_changed i s (set_simRunners (<[i := r']> (simRunners s)) s).
Proof.
  unfold only_Runner_changed. cbn. split; [reflexivity|]. split.
  - apply length_insert.
  - intros j Hne. apply list_lookup_insert_ne. congruence.
Qed.

Lemma only_Runner_changed_refl (i : nat) (s : ServerPrivate) :
  only_Runner_changed i s s.
Proof.
  unfold only_Runner_changed. split; [now destruct s|]. split; reflexivity.
Qed.

(** A world-indexed mutator changes at most the Runner it addresses:
    whatever [SetPaused], [SetUpdatePeriod], [AddSystem] or
    [RequestRemoveEntity] return, the Server's own members, the number
    of Runners and the Runners at every other index are as before. *)
Theorem mutators_change_only_their_Runner
  (i : nat) (s : ServerPrivate) (p rec : bool) (period : Z)
  (sys : SystemHandle) (name : string) (e : Entity) :
  (forall b s', Server.SetPaused p i s = Ok (b, s') -> only_Runner_changed i s s') /\
  (forall s', Server.SetUpdatePeriod period i s = Ok s' -> only_Runner_changed i s s') /\
  (forall b s', Server.AddSystem sys i s = Ok (b, s') -> only_Runner_changed i s s') /\
  (forall b s', Server.RequestRemoveEntity_name name rec i s = Ok (b, s') ->
                only_Runner_changed i s s') /\
  (forall b s', Server.RequestRemoveEntity_entity e rec i s = Ok (b, s') ->
                only_Runner_changed i s s').
Proof.
  unfold Server.SetPaused, Server.SetUpdatePeriod, Server.AddSystem,
    Server.RequestRemoveEntity_name, Server.RequestRemoveEntity_entity.
  destruct (Nat.ltb_spec i (length (simRunners s))) as [Hlt | Hge].
  - destruct (at_index_in_range s i Hlt) as (r & _ & ->). cbn.
    destruct (Runner.RequestRemoveEntity_name name rec r) as [b1 r1].
    destruct (Runner.RequestRemoveEntity_entity e rec r) as [b2 r2].
    conj; intros; destruct (running s);
      match goal with
      | H : Ok _ = Ok _ |- _ => injection H as <-; subst
      end;
      first [apply only_Runner_changed_insert | apply only_Runner_changed_refl].
  - conj; intros; destruct (running s);
      match goal with
      | H : Ok _ = Ok _ |- _ => injection H as <-; subst
      end;
      apply only_Runner_changed_refl.
Qed.

(** The loop that hands the resolved worlds to a Runner, by index from 0
    to [WorldCount], passes each world of the root exactly once, in the
    root's order, and never a null pointer. *)
Lemma worlds_by_index_in_order {B : Type} (f : B -> option sdf.World -> B)
  (root : sdf.Root) (b : B) :
  foldl (fun b j => f b (sdf.WorldByIndex root j)) b (seq 0 (sdf.WorldCount root))
  = foldl (fun b w => f b (Some w)) b (sdf.Worlds root).
Proof.
  unfold sdf.WorldByIndex, sdf.WorldCount. destruct root as [ws]. cbn.
  induction ws as [| w ws IH] using rev_ind; [reflexivity|].
  rewrite length_app, Nat.add_comm. cbn [length Nat.add].
  rewrite seq_S, !foldl_app. cbn [foldl Nat.add].
  rewrite lookup_app_r, Nat.sub_diag by reflexivity. cbn. f_equal.
  rewrite <- IH. clear IH. generalize b. 
  assert (Hin : forall j : nat, j ∈ seq 0 (length ws) -> (ws ++ [w])%list !! j = ws !! j).
  { intros j Hj. apply elem_of_seq in Hj. apply lookup_app_l. lia. }
  revert Hin. generalize (seq 0 (length ws)) as js.
  induction js as [| j js IHjs]; intros Hin b0; [reflexivity|].
  cbn [foldl]. rewrite Hin by (left). apply IHjs.
  intros k Hk. apply Hin. now right.
Qed.

(** A parallel download that goes through: the file is found, Runners
    are there, the file loads without errors and holds a world. Then
    [DownloadModels] returns true, the loaded root is stored, and every
    Runner has been handed every world of the file once, in the file's
    order and never as a null pointer, and was then told that all
    includes are fetched; nothing else of the Server has changed. *)
Theorem parallel_download_hands_over_worlds
  (E : Externals) (world : option string) (s : ServerPrivate) (root : sdf.Root) :
  Source (config s) = kSdfFile ->
  DownloadInParallel (config s) = true ->
  simRunners s <> [] ->
  let path := resolveSdfWorldFile E (SdfFile (config s)) (ResourceCache (config s)) in
  path <> EmptyString ->
  Load E path = ([], root) ->
  sdf.Worlds root <> [] ->
  Server.DownloadModels E world s
    = Ok (true, world,
          set_simRunners
            ((fun runner =>
                Runner.SetFetchedAllIncludes true
                  (foldl (fun r w => Runner.AddWorld (Some w) r) runner
                     (sdf.Worlds root)))
               <$> simRunners s)
            (set_sdfRoot root s)).
Proof.
  intros Hsrc Hpar Hrunners path Hpath Hload Hworlds.
  unfold Server.DownloadModels. rewrite Hsrc, Hpar. fold path.
  destruct path as [| c path'] eqn:Hp; [contradiction|]. cbn [string_empty].
  destruct (simRunners s) as [| r0 rs] eqn:Hrs; [contradiction|].
  cbn [length Nat.eqb andb]. rewrite Hload. cbn [negb].
  cbn [sdfRoot set_sdfRoot simRunners]. unfold sdf.WorldCount at 1.
  destruct (sdf.Worlds root) as [| w ws] eqn:Hws; [contradiction|].
  cbn [length Nat.eqb]. rewrite Hrs. cbn [length Nat.eqb].
  unfold Server.DownloadModels_end. cbn [errors_empty negb].
  do 3 f_equal. apply list_fmap_ext. intros _ r _. f_equal.
  rewrite (worlds_by_index_in_order (fun r w => Runner.AddWorld w r) root r).
  now rewrite Hws.
Qed.

Lemma parallel_download_hands_over_witness :
  Server.DownloadModels Examples.E0 None MoreExamples.shapes_parallel_server
    = Ok (true, None,
          set_simRunners
            ((fun runner =>
                Runner.SetFetchedAllIncludes true
                  (Runner.AddWorld (Some Examples.shapes_world) runner))
               <$> simRunners MoreExamples.shapes_parallel_server)
            (set_sdfRoot {| sdf.Worlds := [Examples.shapes_world] |}
               MoreExamples.shapes_parallel_server)).
Proof.
  apply (parallel_download_hands_over_worlds Examples.E0 None
           MoreExamples.shapes_parallel_server {| sdf.Worlds := [Examples.shapes_world] |});
    first [reflexivity | discriminate].
Defined.

(** [DownloadModels] writes the resolved root and, in a parallel
    download, the Runners it hands worlds to, and nothing else: whatever
    it returns, the configuration, the running flag, the signal handler
    state and the control thread are as before and there are as many
    Runners as before; with parallel downloading off the Runners
    themselves are untouched, and the static of [DefaultWorld::World] is
    only ever touched for a configuration with no source. *)
Theorem DownloadModels_leaves_control_state
  (E : Externals) (world world' : option string) (s s' : ServerPrivate) (ok : bool) :
  Server.DownloadModels E world s = Ok (ok, world', s') ->
  same_control_state s s' /\
  downloadModelsThread s' = downloadModelsThread s /\
  length (simRunners s') = length (simRunners s) /\
  (DownloadInParallel (config s) = false -> simRunners s' = simRunners s) /\
  (Source (config s) <> kNone -> world' = world).
Proof.
  unfold Server.DownloadModels, Server.DownloadModels_end, same_control_state.
  intros Hcall. destruct (Source (config s)).
  - destruct (DefaultWorld.World world DefaultWorld.default_name) as [doc w1].
    destruct (LoadSdfString E doc) as [errors root].
    destruct (negb (errors_empty errors)); injection Hcall as _ <- <-;
      conj; try reflexivity; intros; congruence.
  - cbn in Hcall. injection Hcall as _ <- <-. conj; reflexivity.
  - destruct (string_empty _); [injection Hcall as _ <- <-; conj; reflexivity|].
    destruct (DownloadInParallel (config s)) eqn:Hpar; cbn [andb negb] in Hcall.
    + destruct (length (simRunners s) =? 0)%nat; [discriminate|].
      destruct (Load E _) as [errors root].
      destruct (sdf.WorldCount _ =? 0)%nat;
        [injection Hcall as _ <- <-; conj; try reflexivity; discriminate|].
      destruct (length _ =? 0)%nat; [discriminate|].
      destruct (negb (errors_empty errors)); injection Hcall as _ <- <-; cbn;
        conj; try reflexivity; try discriminate; apply length_fmap.
    + destruct (Load E _) as [errors root].
      injection Hcall as _ <- <-. conj; reflexivity.
  - destruct (LoadSdfString E (SdfString (config s))) as [errors root].
    destruct (negb (errors_empty errors)); injection Hcall as _ <- <-;
      conj; reflexivity.
Qed.

Lemma DownloadModels_leaves_control_state_witness :
  exists s',
    Server.DownloadModels Examples.E0 None MoreExamples.shapes_parallel_server
      = Ok (true, None, s') /\
    same_control_state MoreExamples.shapes_parallel_server s' /\
    length (simRunners s') = 1.
Proof.
  eexists. split; [reflexivity|].
  destruct (DownloadModels_leaves_control_state Examples.E0 None None
              MoreExamples.shapes_parallel_server _ true eq_refl)
    as (Hsame & _ & Hlen & _).
  split; [exact Hsame | exact Hlen].
Defined.

(** With parallel downloading off, [DownloadModels] returns, and what it
    leaves differs from what it found in the resolved root only. *)
Lemma DownloadModels_sync_returns (E : Externals) (world : option string)
  (s : ServerPrivate) :
  DownloadInParallel (config s) = false ->
  exists ok world' root,
    Server.DownloadModels E world s = Ok (ok, world', set_sdfRoot root s).
Proof.
  intros Hpar. unfold Server.DownloadModels, Server.DownloadModels_end.
  rewrite Hpar. cbn [andb negb].
  destruct (Source (config s)).
  - destruct (DefaultWorld.World world DefaultWorld.default_name) as [doc w1].
    destruct (LoadSdfString E doc) as [errors root].
    destruct (negb (errors_empty errors)); eexists _, _, _; reflexivity.
  - eexists _, _, _; reflexivity.
  - destruct (string_empty _).
    + exists false, world, (sdfRoot s). now destruct s.
    + destruct (Load E _) as [errors root]. eexists _, _, _; reflexivity.
  - destruct (LoadSdfString E (SdfString (config s))) as [errors root].
    destruct (negb (errors_empty errors)); eexists _, _, _; reflexivity.
Qed.

(** The end of [Init] returns, and what it leaves differs from what it
    found in the root (the record plugin) and the Runners only; on the
    early return nothing differs. *)
Lemma Init_end_returns (E : Externals) (errors : sdf.Errors)
  (world : option string) (s : ServerPrivate) :
  exists o root rs,
    Server.Init_end E errors world s
      = Ok (o, world, set_simRunners rs (set_sdfRoot root s)) /\
    (o = Server.Aborted -> rs = simRunners s).
Proof.
  unfold Server.Init_end.
  destruct (negb (errors_empty errors)).
  { exists Server.Aborted, (sdfRoot s), (simRunners s). now destruct s. }
  set (s1 := if UseLogRecord (config s) then _ else s).
  assert (Hs1 : exists root, s1 = set_sdfRoot root s).
  { subst s1. destruct (UseLogRecord (config s)); [eexists; reflexivity|].
    exists (sdfRoot s). now destruct s. }
  destruct Hs1 as [root ->].
  set (s2 := Server.CreateEntities (set_sdfRoot root s)).
  assert (Hs2 : s2 = set_simRunners (simRunners s2) (set_sdfRoot root s))
    by reflexivity.
  assert (Hset : forall period,
            exists rs, Server.SetUpdatePeriod period 0 s2
                       = Ok (set_simRunners rs (set_sdfRoot root s))).
  { intros period. unfold Server.SetUpdatePeriod.
    destruct (Nat.ltb_spec 0 (length (simRunners s2))) as [Hlt | Hge].
    - destruct (at_index_in_range s2 0 Hlt) as (r & _ & ->).
      eexists. cbn. reflexivity.
    - exists (simRunners s2). now rewrite <- Hs2. }
  destruct (UpdatePeriod (config s2)) as [period|].
  - destruct (Hset period) as [rs ->]. cbn.
    exists Server.Initialized, root, rs. split; [reflexivity | discriminate].
  - cbn. exists Server.Initialized, root, (simRunners s2).
    split; [now rewrite <- Hs2 | discriminate].
Qed.

(** [Init] returns, and what it leaves differs from what it found in
    the download thread it started, the root and the Runners only. *)
Lemma Init_returns_with (E : Externals) (world : option string) (s : ServerPrivate) :
  exists o world' root rs,
    Server.Init E world s
      = Ok (o, world',
            set_simRunners rs
              (set_sdfRoot root
                 (set_downloadModelsThread
                    (DownloadInParallel (config s) || downloadModelsThread s) s))) /\
    (o = Server.Aborted -> rs = simRunners s).
Proof.
  unfold Server.Init. destruct (DownloadInParallel (config s)) eqn:Hpar.
  - destruct (WorldNamesFromFile E _) as [errors2 [| name0 names]].
    + exists Server.Aborted, world, (sdfRoot s), (simRunners s).
      split; [reflexivity | reflexivity].
    + destruct (DefaultWorld.World world name0) as [doc w1].
      destruct (LoadSdfString E doc) as [errors root].
      destruct (Init_end_returns E errors w1
                  (set_sdfRoot root (set_downloadModelsThread true s)))
        as (o & root' & rs & -> & Hab).
      exists o, w1, root', rs. split; [reflexivity | exact Hab].
  - assert (Hs : forall root rs,
              set_simRunners rs (set_sdfRoot root s)
              = set_simRunners rs
                  (set_sdfRoot root
                     (set_downloadModelsThread (false || downloadModelsThread s) s)))
      by (intros; now destruct s).
    destruct (DownloadModels_sync_returns E world s Hpar) as (ok & w1 & root & ->).
    cbn -[Server.Init_end]. destruct ok; cbn [negb].
    + destruct (Init_end_returns E [] w1 (set_sdfRoot root s))
        as (o & root' & rs & -> & Hab).
      exists o, w1, root', rs. split; [now rewrite <- Hs | exact Hab].
    + exists Server.Aborted, w1, root, (simRunners s).
      split; [|reflexivity]. rewrite <- Hs. now destruct s.
Qed.

(** [Server::Init] always returns: the polling loops of [DownloadModels]
    are only ever entered by the download thread, and the update period
    of the configuration is applied through the guarded
    [SetUpdatePeriod], also when no Runner was created. It never changes
    the configuration, the running flag or the control thread, it starts
    the download thread exactly in parallel mode, and when it returns
    before [CreateEntities] the Runners are as they were. *)
Theorem Init_always_returns (E : Externals) (world : option string)
  (s : ServerPrivate) :
  exists o world' s',
    Server.Init E world s = Ok (o, world', s') /\
    same_control_state s s' /\
    downloadModelsThread s'
      = (DownloadInParallel (config s) || downloadModelsThread s) /\
    (o = Server.Aborted -> simRunners s' = simRunners s).
Proof.
  destruct (Init_returns_with E world s) as (o & w1 & root & rs & Hinit & Hab).
  eexists o, w1, _. split; [exact Hinit|].
  unfold same_control_state. cbn. conj; try reflexivity. exact Hab.
Qed.

(** A Server whose construction stopped before [CreateEntities] has no
    Runner, is not running and has no control thread; so every
    world-indexed accessor, at every index, gives its "no such world"
    answer and leaves the Server alone. *)
Theorem aborted_Server_has_no_Runner
  (E : Externals) (sig : bool) (world world' : option string) (c : ServerConfig)
  (s : ServerPrivate) :
  Server.Server_new E sig world c = Ok (Server.Aborted, world', s) ->
  simRunners s = [] /\ running s = false /\ runThread s = None /\
  forall (i : nat) (p : bool) (sys : SystemHandle) (name : string),
    Server.EntityCount i s = Ok None /\
    Server.IterationCount i s = Ok None /\
    Server.HasEntity name i s = Ok false /\
    Server.SetPaused p i s = Ok (false, s) /\
    Server.AddSystem sys i s = Ok (None, s) /\
    Server.RequestRemoveEntity_name name true i s = Ok (false, s).
Proof.
  unfold Server.Server_new. intros Hnew.
  destruct (Init_returns_with E world (ServerPrivate_new sig c))
    as (o & w1 & root & rs & Hinit & Hab).
  rewrite Hinit in Hnew. injection Hnew as -> -> <-.
  rewrite (Hab eq_refl). cbn. conj; try reflexivity.
  intros i p sys name.
  unfold Server.EntityCount, Server.IterationCount, Server.HasEntity,
    Server.SetPaused, Server.AddSystem, Server.RequestRemoveEntity_name.
  cbn. conj; reflexivity.
Qed.

Lemma aborted_Server_witness :
  exists s,
    Server.Server_new Examples.E0 true None
      (Examples.config_of kSdfFile "nowhere.sdf" true)
      = Ok (Server.Aborted, None, s) /\
    simRunners s = [] /\
    Server.EntityCount 0 s = Ok None /\
    Server.AddSystem (SystemPlugin "physics") 0 s = Ok (None, s).
Proof.
  eexists. split; [reflexivity|].
  destruct (aborted_Server_has_no_Runner Examples.E0 true None None
              (Examples.config_of kSdfFile "nowhere.sdf" true) _ eq_refl)
    as (Hrs & _ & _ & Hall).
  split; [exact Hrs|].
  destruct (Hall 0 true (SystemPlugin "physics") "box") as (He & _ & _ & _ & Ha & _).
  split; [exact He | exact Ha].
Defined.

(* ===================================================================== *)
(** ** Properties of SetModelState.cc *)
(* ===================================================================== *)

Section SetModelStateFacts.

Import SetModelState.

Context {double : Type} {angle : MathAngle double}.

(** What the two parsing blocks compute for one [<joint_state>], in
    closed form: for the position and for the velocity alike, the vector
    is [reset_vector] of the [<axis>] element and the [<axis2>] element
    (the latter only looked at when the joint has a [JointAxis2]
    component), and it counts as set when one of the two elements had a
    text that was read. In particular an element without a readable
    text still takes its place in the vector, with the value of a
    default angle, but does not by itself make the plugin write
    anything. *)
Theorem joint_state_in_closed_form (hasAxis2 : bool) (js : JointStateElem double) :
  let second a := if hasAxis2 then a else None in
  let d := read_joint_state hasAxis2 js in
  jointPosition d
    = reset_vector (axis js ≫= position) (second (axis2 js ≫= position)) /\
  jointPositionSet d
    = reset_written (axis js ≫= position) (second (axis2 js ≫= position)) /\
  jointVelocity d
    = reset_vector (axis js ≫= velocity) (second (axis2 js ≫= velocity)) /\
  jointVelocitySet d
    = reset_written (axis js ≫= velocity) (second (axis2 js ≫= velocity)).
Proof.
  cbv zeta. unfold read_joint_state, reset_vector, reset_written.
  destruct js as [n [[[p1|] [v1|]]|] [[[p2|] [v2|]]|]]; destruct hasAxis2; cbn;
    repeat match goal with
      | |- context [read_angle ?e] => destruct (read_angle e) as [? []]
      end;
    cbn; conj; reflexivity.
Qed.

(** The vectors of one [<joint_state>] have at most two entries, have an
    entry whenever they count as set, and have two only for a joint
    with a [JointAxis2] component. *)
Lemma joint_state_shape (hasAxis2 : bool) (js : JointStateElem double) :
  let d := read_joint_state hasAxis2 js in
  (length (jointPosition d) <= 2 /\
   (jointPositionSet d = true -> 1 <= length (jointPosition d)) /\
   (length (jointPosition d) = 2 -> hasAxis2 = true)) /\
  (length (jointVelocity d) <= 2 /\
   (jointVelocitySet d = true -> 1 <= length (jointVelocity d)) /\
   (length (jointVelocity d) = 2 -> hasAxis2 = true)).
Proof.
  cbv zeta. unfold read_joint_state.
  destruct js as [n [[[p1|] [v1|]]|] [[[p2|] [v2|]]|]]; destruct hasAxis2; cbn;
    repeat match goal with
      | |- context [read_angle ?e] => destruct (read_angle e) as [? []]
      end;
    cbn; conj; intros; try lia; try discriminate; reflexivity.
Qed.

Context {ecm : Type} {manager : EntityComponentManager double ecm}.

Lemma same_joints_refl (m : ecm) : same_joints m m.
Proof. unfold same_joints. conj; reflexivity. Qed.

Lemma same_joints_trans (m1 m2 m3 : ecm) :
  same_joints m1 m2 -> same_joints m2 m3 -> same_joints m1 m3.
Proof.
  unfold same_joints. intros (H1 & H2 & H3) (G1 & G2 & G3).
  conj; intros; [rewrite G1 | rewrite G2 | rewrite G3]; auto.
Qed.

Lemma target_same (model : Entity) (m m' : ecm) (js : JointStateElem double) :
  same_joints m m' -> target model m' js = target model m js.
Proof.
  unfold same_joints, target. intros (Hj & Ha & _).
  destruct (name js) as [n|]; [|reflexivity]. now rewrite Hj, Ha.
Qed.

Lemma target_Some (model : Entity) (m : ecm) (js : JointStateElem double)
  (j : Entity) :
  target model m js = Some j <->
  exists n, name js = Some n /\ JointByName m model n = j /\
            j <> kNullEntity /\ has_JointAxis m j = true.
Proof.
  unfold target. destruct (name js) as [n|].
  - destruct (N.eqb_spec (JointByName m model n) kNullEntity) as [Hnull | Hnull];
      [|destruct (has_JointAxis m (JointByName m model n)) eqn:Hax]; split.
    + discriminate.
    + intros (n' & [= <-] & <- & Hne & _). contradiction.
    + intros [= <-]. exists n. conj; auto.
    + intros (n' & [= <-] & <- & _). reflexivity.
    + discriminate.
    + intros (n' & [= <-] & <- & _ & Hax'). congruence.
  - split; [discriminate | intros (n' & Hn & _); discriminate].
Qed.

Section Frame.

Hypothesis Hframe : resets_keep_joints ecm.

Lemma same_joints_perform (m : ecm) (ws : list (Write double)) :
  same_joints m (foldl perform m ws).
Proof.
  revert m. induction ws as [| w ws IH]; intros m; [apply same_joints_refl|].
  cbn [foldl]. eapply same_joints_trans; [|apply IH].
  destruct w as [j v | j v]; apply Hframe.
Qed.

(** One round of the loop is the calls its [<joint_state>] leads to by
    the answers of an earlier state of the ECM, and one more line of
    diagnostics if it leads to none. *)
Lemma step_spec (model : Entity) (modelName : string)
  (m m1 : ecm) (log : list Diagnostic) (js : JointStateElem double) :
  same_joints m m1 ->
  let '(m2, log2) := Configure_joint_state model modelName (m1, log) js in
  m2 = foldl perform m1 (writes_of model m js) /\
  length log2 + length (omap (target model m) [js]) = S (length log).
Proof.
  intros Hsame. pose proof (target_same model m m1 js Hsame) as Ht.
  unfold writes_of. cbn [omap list_omap]. rewrite <- Ht.
  unfold Configure_joint_state, target.
  destruct (name js) as [n|].
  2:{ split; [reflexivity|]. rewrite length_app. cbn. lia. }
  destruct (N.eqb_spec (JointByName m1 model n) kNullEntity) as [Hnull | Hnull].
  { split; [reflexivity|]. rewrite length_app. cbn. lia. }
  destruct (has_JointAxis m1 (JointByName m1 model n)); cbn [negb].
  2:{ split; [reflexivity|]. rewrite length_app. cbn. lia. }
  destruct Hsame as (_ & _ & Ha2). rewrite <- Ha2.
  destruct (jointPositionSet _), (jointVelocitySet _); cbn; split;
    try reflexivity; lia.
Qed.

(** The loop over the [<joint_state>] elements is the calls they lead
    to by the answers of the ECM before the loop, in document order. *)
Lemma loop_spec (model : Entity) (modelName : string)
  (l : list (JointStateElem double)) (m m1 : ecm) (log : list Diagnostic) :
  same_joints m m1 ->
  let '(m2, log2) := foldl (Configure_joint_state model modelName) (m1, log) l in
  m2 = foldl perform m1 (l ≫= writes_of model m) /\
  length log2 + length (omap (target model m) l) = length log + length l.
Proof.
  revert m1 log. induction l as [| js l IH]; intros m1 log Hsame.
  { cbn. split; [reflexivity | lia]. }
  cbn [foldl].
  pose proof (step_spec model modelName m m1 log js Hsame) as Hstep.
  destruct (Configure_joint_state model modelName (m1, log) js) as [m2 log2].
  destruct Hstep as [-> Hlog].
  assert (Hsame2 : same_joints m (foldl perform m1 (writes_of model m js)))
    by (eapply same_joints_trans; [exact Hsame | apply same_joints_perform]).
  specialize (IH _ log2 Hsame2).
  destruct (foldl _ (foldl perform m1 (writes_of model m js), log2) l) as [m3 log3].
  destruct IH as [-> Hlog3]. split.
  - rewrite bind_cons, foldl_app. reflexivity.
  - cbn [omap list_omap] in *. destruct (target model m js); cbn in *; lia.
Qed.

End Frame.

(** The calls of one [<joint_state>]: at most one per component, the
    position first, all on the joint it is about, with vectors of one
    or two entries. *)
Lemma writes_of_spec (model : Entity) (m : ecm) (js : JointStateElem double)
  (w : Write double) :
  w ∈ writes_of model m js ->
  target model m js = Some (joint_of w) /\
  1 <= length (data_of w) <= 2 /\
  (length (data_of w) = 2 -> has_JointAxis2 m (joint_of w) = true) /\
  (if is_PositionReset w
   then jointPositionSet (read_joint_state (has_JointAxis2 m (joint_of w)) js) = true
   else jointVelocitySet (read_joint_state (has_JointAxis2 m (joint_of w)) js) = true).
Proof.
  unfold writes_of. destruct (target model m js) as [j|]; [|intros H; inversion H].
  pose proof (joint_state_shape (has_JointAxis2 m j) js) as Hshape.
  cbv zeta in Hshape. destruct Hshape as [(Hp1 & Hp2 & Hp3) (Hv1 & Hv2 & Hv3)].
  intros Hin. apply elem_of_app in Hin as [Hin | Hin].
  - destruct (jointPositionSet _) eqn:Hset; [|inversion Hin].
    apply list_elem_of_singleton in Hin as ->. cbn.
    conj; auto.
  - destruct (jointVelocitySet _) eqn:Hset; [|inversion Hin].
    apply list_elem_of_singleton in Hin as ->. cbn.
    conj; auto.
Qed.

(** [Configure] keeps the entity it is given as the plugin's model, and
    all it does to an ECM whose joints do not change when reset data is
    set is a sequence of [SetComponentData] calls on the two reset
    components, each of them on a joint that a [<joint_state>] of the
    plugin's [<model_state>] names: the model is valid, the joint is
    what [JointByName] gives for the name of one of the elements, it is
    not [kNullEntity] and has a [JointAxis] component. The vector of a
    call has one or two entries, and two only for a joint with a
    [JointAxis2] component. *)
Theorem Configure_writes_only_named_joints
  (e : Entity) (sdf : PluginSdf double) (m : ecm) :
  resets_keep_joints ecm ->
  let '(model, m', log) := Configure e sdf m in
  model = e /\
  exists ws : list (Write double),
    m' = foldl perform m ws /\
    Forall (fun w =>
      Valid m e = true /\
      joint_of w <> kNullEntity /\
      has_JointAxis m (joint_of w) = true /\
      (exists l js n,
         model_state sdf = Some l /\ js ∈ l /\ name js = Some n /\
         JointByName m e n = joint_of w) /\
      1 <= length (data_of w) <= 2 /\
      (length (data_of w) = 2 -> has_JointAxis2 m (joint_of w) = true)) ws.
Proof.
  intros Hframe. unfold Configure.
  destruct (Valid m e) eqn:Hvalid; cbn [negb].
  2:{ split; [reflexivity|]. exists []. split; [reflexivity | constructor]. }
  destruct (model_state sdf) as [l|].
  2:{ split; [reflexivity|]. exists []. split; [reflexivity | constructor]. }
  pose proof (loop_spec Hframe e (Name m e) l m m [] (same_joints_refl m)) as Hloop.
  destruct (foldl _ (m, []) l) as [m' log]. destruct Hloop as [-> _].
  split; [reflexivity|]. exists (l ≫= writes_of e m). split; [reflexivity|].
  apply Forall_forall. intros w Hw.
  apply list_elem_of_bind in Hw as (js & Hw & Hjs).
  apply writes_of_spec in Hw as (Ht & Hlen & Htwo & _).
  apply target_Some in Ht as (n & Hn & Hjn & Hnull & Hax).
  conj; auto; try lia. exists l, js, n. conj; auto.
Qed.

(** What [Configure] reports. On an entity that is not a model it logs
    one line and returns with the ECM untouched, and so it does without
    a [<model_state>]. Otherwise it logs exactly one line for every
    [<joint_state>] it skips (no name, no such joint, no [JointAxis]
    component) and none for the others; if it skips them all the ECM is
    untouched. *)
Theorem Configure_diagnostics
  (e : Entity) (sdf : PluginSdf double) (m : ecm) :
  resets_keep_joints ecm ->
  (Valid m e = false -> Configure e sdf m = (e, m, [NotAModel])) /\
  (Valid m e = true -> model_state sdf = None ->
   Configure e sdf m = (e, m, [NoModelState])) /\
  (forall l, Valid m e = true -> model_state sdf = Some l ->
   let '(model, m', log) := Configure e sdf m in
   length log + length (omap (target e m) l) = length l /\
   (omap (target e m) l = [] -> m' = m)).
Proof.
  intros Hframe. unfold Configure. conj.
  - intros ->. reflexivity.
  - intros -> ->. reflexivity.
  - intros l -> ->. cbn [negb].
    pose proof (loop_spec Hframe e (Name m e) l m m [] (same_joints_refl m)) as Hloop.
    destruct (foldl _ (m, []) l) as [m' log]. destruct Hloop as [-> Hlen].
    cbn in Hlen. split; [exact Hlen|]. intros Hnone.
    assert (Hno : l ≫= writes_of e m = []).
    { clear Hlen. induction l as [| js l IH]; [reflexivity|].
      cbn [omap list_omap] in Hnone. rewrite bind_cons. unfold writes_of at 1.
      destruct (target e m js); [discriminate|]. cbn. now apply IH. }
    now rewrite Hno.
Qed.

(** Of several [<joint_state>] elements about one joint, the last one
    that sets a quantity decides it: if no later element about the joint
    sets the position, the call that sets the joint's
    [JointPositionReset] data to the vector of that element is followed
    by no other call that sets it, and likewise for the velocity. *)
Theorem last_setting_joint_state_wins
  (e : Entity) (sdf : PluginSdf double) (m : ecm)
  (before after : list (JointStateElem double)) (js : JointStateElem double)
  (j : Entity) :
  resets_keep_joints ecm ->
  Valid m e = true ->
  model_state sdf = Some (before ++ js :: after)%list ->
  target e m js = Some j ->
  let read := read_joint_state (has_JointAxis2 m j) in
  let '(model, m', log) := Configure e sdf m in
  (jointPositionSet (read js) = true ->
   Forall (fun js' => target e m js' = Some j -> jointPositionSet (read js') = false)
     after ->
   exists earlier later,
     m' = foldl perform m
            (earlier ++ PositionReset j (jointPosition (read js)) :: later)%list /\
     Forall (fun w => is_PositionReset w = true -> joint_of w <> j) later) /\
  (jointVelocitySet (read js) = true ->
   Forall (fun js' => target e m js' = Some j -> jointVelocitySet (read js') = false)
     after ->
   exists earlier later,
     m' = foldl perform m
            (earlier ++ VelocityReset j (jointVelocity (read js)) :: later)%list /\
     Forall (fun w => is_PositionReset w = false -> joint_of w <> j) later).
Proof.
  intros Hframe Hvalid Hsdf Htarget read. unfold Configure.
  rewrite Hvalid, Hsdf. cbn [negb].
  pose proof (loop_spec Hframe e (Name m e) (before ++ js :: after) m m []
                (same_joints_refl m)) as Hloop.
  destruct (foldl _ (m, []) (before ++ js :: after)%list) as [m' log].
  destruct Hloop as [-> _]. rewrite bind_app, bind_cons.
  assert (Hafter : forall (isPosition : bool),
            Forall (fun js' => target e m js' = Some j ->
                      (if isPosition then jointPositionSet (read js')
                       else jointVelocitySet (read js')) = false) after ->
            Forall (fun w => is_PositionReset w = isPosition -> joint_of w <> j)
              (after ≫= writes_of e m)).
  { intros isPosition Hlater. apply Forall_forall. intros w Hw Hkind Hj.
    apply list_elem_of_bind in Hw as (js' & Hw & Hjs').
    apply writes_of_spec in Hw as (Ht & _ & _ & Hset).
    rewrite Forall_forall in Hlater. rewrite Hj in Ht, Hset.
    specialize (Hlater js' Hjs' Ht). fold read in Hset.
    rewrite Hkind in Hset. destruct isPosition; congruence. }
  assert (Hjs : writes_of e m js =
            ((if jointPositionSet (read js)
              then [PositionReset j (jointPosition (read js))] else []) ++
             (if jointVelocitySet (read js)
              then [VelocityReset j (jointVelocity (read js))] else []))%list)
    by (unfold writes_of; now rewrite Htarget).
  rewrite Hjs.
  split; intros Hset Hlater.
  - rewrite Hset. exists (before ≫= writes_of e m). eexists.
    split; [reflexivity|]. apply Forall_app. split.
    + destruct (jointVelocitySet (read js)); repeat constructor. discriminate.
    + exact (Hafter true Hlater).
  - rewrite Hset.
    exists ((before ≫= writes_of e m) ++
            (if jointPositionSet (read js)
             then [PositionReset j (jointPosition (read js))] else []))%list.
    exists (after ≫= writes_of e m). split.
    + now rewrite <- !app_assoc.
    + exact (Hafter false Hlater).
Qed.

End SetModelStateFacts.

Section SetModelStateExamples.

Import SetModelState MoreExamples.

Lemma Configure_writes_only_named_joints_witness :
  resets_keep_joints (list (Write Number)) /\
  let '(model, m', log) := Configure 1%N arm_sdf [] in
  model = 1%N /\
  exists ws : list (Write Number),
    m' = foldl perform [] ws /\
    Forall (fun w =>
      Valid [] 1%N = true /\
      joint_of w <> kNullEntity /\
      has_JointAxis [] (joint_of w) = true /\
      (exists l js n,
         model_state arm_sdf = Some l /\ js ∈ l /\ name js = Some n /\
         JointByName [] 1%N n = joint_of w) /\
      1 <= length (data_of w) <= 2 /\
      (length (data_of w) = 2 -> has_JointAxis2 [] (joint_of w) = true)) ws.
Proof.
  assert (H : resets_keep_joints (list (Write Number)))
    by (intros j v m; split; unfold same_joints; cbn; auto).
  split; [exact H|].
  exact (Configure_writes_only_named_joints 1%N arm_sdf [] H).
Defined.

Lemma Configure_diagnostics_witness :
  resets_keep_joints (list (Write Number)) /\
  Configure 1%N arm_sdf []
    = (1%N,
       [PositionReset 2%N [InRadians (Literal "90")];
        VelocityReset 3%N [Literal "0.0"; Literal "0.5"];
        PositionReset 2%N [Literal "1.57"]],
       [NoJointName; NoJointAxis "bracket" "arm"]) /\
  let '(model, m', log) := Configure 1%N arm_sdf [] in
  length log +
    length (omap (target 1%N [])
              [shoulder_state; nameless_state; wrist_state; bracket_state;
               shoulder_again])
    = 5 /\
  (omap (target 1%N [])
     [shoulder_state; nameless_state; wrist_state; bracket_state; shoulder_again]
   = [] -> m' = []).
Proof.
  assert (H : resets_keep_joints (list (Write Number)))
    by (intros j v m; split; unfold same_joints; cbn; auto).
  split; [exact H|]. split; [reflexivity|].
  destruct (Configure_diagnostics 1%N arm_sdf [] H) as (_ & _ & Hl).
  exact (Hl _ eq_refl eq_refl).
Defined.

Lemma last_setting_joint_state_witness :
  let '(model, m', log) := Configure 1%N arm_sdf [] in
  exists earlier later,
    m' = foldl perform []
           (earlier ++ VelocityReset 3%N [Literal "0.0"; Literal "0.5"] :: later)%list /\
    Forall (fun w => is_PositionReset w = false -> joint_of w <> 3%N) later.
Proof.
  assert (H : resets_keep_joints (list (Write Number)))
    by (intros j v m; split; unfold same_joints; cbn; auto).
  refine (proj2 (last_setting_joint_state_wins 1%N arm_sdf []
                   [shoulder_state; nameless_state] [bracket_state; shoulder_again]
                   wrist_state 3%N H eq_refl eq_refl eq_refl) eq_refl _).
  repeat constructor; intros Ht; vm_compute in Ht; discriminate.
Defined.

End SetModelStateExamples.
